(** * Level2: the weekend-assistant orchestrator and its tool server

    A shallow embedding of [agent_fun.py] (intent detection, the tool
    invocation channel, the weather pipeline, the conversation loop) and of
    [server_fun.py] (the tools themselves), with the properties the
    specification states about them.

    Conventions of the embedding.
    - A Python [str] is a Rocq [string].  Character classes ([str.lower],
      [str.isspace], the regular-expression classes [\s], [\w], [[a-zA-Z ]])
      are those of Python on ASCII text; a byte above 127 belongs to no
      class and is its own lower case.  Python's classes are wider on other
      text (a dotted capital I matches [i] when case is ignored, a
      no-break space is trimmed), so a statement that rests on them is made
      of ASCII text ([is_ascii]).
    - A value decoded from JSON, or passed as a tool argument, is a [json].
      Python floats are IEEE binary64 values ([spec_float]).
    - A Python exception is an [exn]; code that may raise returns a [pyres].
    - The collaborators the source reaches through libraries (the MCP
      session, [json.loads], the [ollama] chat call, [requests.get]) are
      Section variables: every statement holds whatever they answer. *)

From Stdlib Require Import ZArith String Ascii List Bool Lia.
From Stdlib Require Import Floats.SpecFloat DecimalString.
Import ListNotations.

Local Open Scope list_scope.
Local Open Scope string_scope.

(** ** Python strings *)

Module PyStr.

Definition chr (n : nat) : string := String (ascii_of_nat n) EmptyString.

(** The characters the source writes with an escape. *)
Definition nl : string := chr 10.
Definition dquote : string := chr 34.

Definition code (c : ascii) : nat := nat_of_ascii c.

Definition between (lo hi : nat) (c : ascii) : bool :=
  Nat.leb lo (code c) && Nat.leb (code c) hi.

Definition is_upper (c : ascii) : bool := between 65 90 c.
Definition is_lower (c : ascii) : bool := between 97 122 c.
Definition is_alpha (c : ascii) : bool := is_upper c || is_lower c.
Definition is_digit (c : ascii) : bool := between 48 57 c.

(** [str.isspace] and the class [\s]: tab, newline, vertical tab, form
    feed, carriage return, the four separators 0x1c to 0x1f, and space. *)
Definition is_space (c : ascii) : bool :=
  between 9 13 c || between 28 31 c || Nat.eqb (code c) 32.

(** The class [\w]: letters, digits and the underscore. *)
Definition is_word (c : ascii) : bool :=
  is_alpha c || is_digit c || Nat.eqb (code c) 95.

Definition lower_char (c : ascii) : ascii :=
  if is_upper c then ascii_of_nat (code c + 32) else c.

(** [s.lower()] *)
Fixpoint lower (s : string) : string :=
  match s with
  | EmptyString => EmptyString
  | String c s' => String (lower_char c) (lower s')
  end.

Fixpoint lstrip (s : string) : string :=
  match s with
  | EmptyString => EmptyString
  | String c s' => if is_space c then lstrip s' else s
  end.

Fixpoint rstrip (s : string) : string :=
  match s with
  | EmptyString => EmptyString
  | String c s' =>
      match rstrip s' with
      | EmptyString => if is_space c then EmptyString else String c EmptyString
      | r => String c r
      end
  end.

(** [s.strip()] *)
Definition strip (s : string) : string := rstrip (lstrip s).

(** [w in u] on strings: [w] occurs in [u] as a substring. *)
Fixpoint contains (w u : string) : bool :=
  String.prefix w u ||
  match u with
  | EmptyString => false
  | String _ u' => contains w u'
  end.

(** [any(w in u for w in ws)] *)
Definition any_in (ws : list string) (u : string) : bool :=
  existsb (fun w => contains w u) ws.

(** Truth value of a string: non-empty. *)
Definition nonempty (s : string) : bool :=
  match s with EmptyString => false | String _ _ => true end.

(** [sep.join(parts)] *)
Fixpoint join (sep : string) (parts : list string) : string :=
  match parts with
  | [] => EmptyString
  | [p] => p
  | p :: ps => p ++ sep ++ join sep ps
  end.

End PyStr.

(** ** The two regular expressions of [detect_tool]

    Both have the shape
    [\b(?:w1|...|wn)\s+([a-zA-Z ]+?)(?:t1|...|$)] under [re.I], and
    [re.search] returns the leftmost match found by backtracking.  The
    matcher below follows that search: alternatives in order, [\s+] greedy,
    the group lazy. *)

Module Regex.
Import PyStr.

(** A literal of the pattern matched at the head of [s] ignoring case;
    the rest of [s] after it. *)
Fixpoint literal_ci (w s : string) : option string :=
  match w, s with
  | EmptyString, _ => Some s
  | String a w', String c s' =>
      if Ascii.eqb a (lower_char c) then literal_ci w' s' else None
  | String _ _, EmptyString => None
  end.

(** [(?:w1|...|wn)] followed by [k]: the first alternative after which
    [k] succeeds. *)
Fixpoint alternatives {A} (ws : list string) (k : string -> option A)
         (s : string) : option A :=
  match ws with
  | [] => None
  | w :: ws' =>
      match literal_ci w s with
      | Some rest =>
          match k rest with
          | Some r => Some r
          | None => alternatives ws' k s
          end
      | None => alternatives ws' k s
      end
  end.

(** [\s+] followed by [k]: as many blanks as possible, giving them back
    one at a time while [k] fails. *)
Fixpoint spaces_then {A} (k : string -> option A) (s : string) : option A :=
  match s with
  | EmptyString => None
  | String c s' =>
      if is_space c then
        match spaces_then k s' with
        | Some r => Some r
        | None => k s'
        end
      else None
  end.

(** [[a-zA-Z ]] *)
Definition in_class (c : ascii) : bool :=
  is_alpha c || Nat.eqb (code c) 32.

(** The closing group [(?:\?|$|\.)], with [,] too when [comma] is set.
    [$] holds at the end of the text and before a final newline. *)
Definition terminator (comma : bool) (s : string) : bool :=
  match s with
  | EmptyString => true
  | String c s' =>
      Nat.eqb (code c) 63 || Nat.eqb (code c) 46
      || (comma && Nat.eqb (code c) 44)
      || (Nat.eqb (code c) 10 && negb (nonempty s'))
  end.

(** [([a-zA-Z ]+?)] followed by the terminator: the shortest run that a
    terminator follows.  The result is the text of the group. *)
Fixpoint lazy_group (comma : bool) (s : string) : option string :=
  match s with
  | EmptyString => None
  | String c s' =>
      if in_class c then
        if terminator comma s' then Some (String c EmptyString)
        else option_map (String c) (lazy_group comma s')
      else None
  end.

Definition word_start (o : option ascii) : bool :=
  match o with Some c => is_word c | None => false end.

Definition head (s : string) : option ascii :=
  match s with EmptyString => None | String c _ => Some c end.

(** [\b] between the character before ([prev]) and the text at [s]. *)
Definition boundary (prev : option ascii) (s : string) : bool :=
  xorb (word_start prev) (word_start (head s)).

(** The whole pattern anchored at the current position. *)
Definition match_here (ws : list string) (comma : bool)
           (prev : option ascii) (s : string) : option string :=
  if boundary prev s
  then alternatives ws (spaces_then (lazy_group comma)) s
  else None.

(** [re.search]: the first position where the pattern matches; the value
    is [m.group(1)], [None] when the search finds nothing. *)
Fixpoint search_from (ws : list string) (comma : bool)
         (prev : option ascii) (s : string) : option string :=
  match match_here ws comma prev s with
  | Some g => Some g
  | None =>
      match s with
      | EmptyString => None
      | String c s' => search_from ws comma (Some c) s'
      end
  end.

Definition search (ws : list string) (comma : bool) (s : string)
  : option string :=
  search_from ws comma None s.

End Regex.

(** ** JSON values and Python exceptions *)

#[warnings="-register-all"]
Inductive json : Type :=
| JNull
| JBool (b : bool)
| JInt (z : Z)
| JFloat (f : spec_float)
| JStr (s : string)
| JList (l : list json)
| JDict (kvs : list (string * json)).

(** A Python [dict] with string keys, as an association list. *)
Definition dict : Type := list (string * json).

Module Dict.

Fixpoint get (k : string) (d : dict) : option json :=
  match d with
  | [] => None
  | (k', v) :: d' => if String.eqb k k' then Some v else get k d'
  end.

(** [d.get(k)] is [None] on a missing key, [d.get(k, dflt)] is [dflt]. *)
Definition get_or (k : string) (dflt : json) (d : dict) : json :=
  match get k d with Some v => v | None => dflt end.

End Dict.

(** ** Reading JSON

    [Json.loads] reads a JSON text the way [json.loads] does, over ASCII
    texts whose [\u] escapes denote ASCII characters; it is [None] where
    [json.loads] raises, and on the texts outside that range.  The
    statements below never rely on it: they take the decoder as a variable.
    It serves to run the development on concrete texts. *)

Module Json.

Definition code (c : ascii) : nat := nat_of_ascii c.

(** JSON white space: space, tab, line feed, carriage return. *)
Definition is_ws (c : ascii) : bool :=
  Nat.eqb (code c) 32 || Nat.eqb (code c) 9 || Nat.eqb (code c) 10
  || Nat.eqb (code c) 13.

Fixpoint skip_ws (s : string) : string :=
  match s with
  | String c s' => if is_ws c then skip_ws s' else s
  | EmptyString => EmptyString
  end.

Definition digit (c : ascii) : option Z :=
  if Nat.leb 48 (code c) && Nat.leb (code c) 57
  then Some (Z.of_nat (code c - 48)) else None.

(** A run of decimal digits: its value continuing [acc], how many digits
    it has, and the text after it. *)
Fixpoint digits (acc : Z) (n : nat) (s : string) : Z * nat * string :=
  match s with
  | String c s' =>
      match digit c with
      | Some d => digits (10 * acc + d)%Z (S n) s'
      | None => (acc, n, s)
      end
  | EmptyString => (acc, n, s)
  end.

(** The binary64 value nearest to [m * 10 ^ e] (ties to even), as
    [float] reads a decimal literal. *)
Definition float_of_decimal (neg : bool) (m e : Z) : spec_float :=
  (if m =? 0 then S754_zero neg
   else
     let sign := fun z : Z => if neg then - z else z in
     if 0 <=? e then binary_normalize 53 1024 (sign (m * 10 ^ e)) 0 false
     else
       let d := 10 ^ (- e) in
       let s := Z.log2 d + 64 in
       let q := (m * 2 ^ s) / d in
       let sticky := if (m * 2 ^ s) mod d =? 0 then 0 else 1 in
       binary_normalize 53 1024 (sign (2 * q + sticky)) (- s - 1) false)%Z.

Definition starts (c : nat) (s : string) : option string :=
  match s with
  | String a s' => if Nat.eqb (code a) c then Some s' else None
  | EmptyString => None
  end.

(** The fraction [.ddd] at [s], continuing the integer part [ip]: the
    digits read so far as one integer, how many follow the point, the
    text after them. *)
Definition fraction (ip : Z) (s : string) : option (Z * nat * string) :=
  match starts 46 s with
  | Some r =>
      match digits ip 0 r with
      | (_, O, _) => None
      | found => Some found
      end
  | None => None
  end.

(** The exponent [e+dd] at [s]. *)
Definition exponent (s : string) : option (Z * string) :=
  match s with
  | String c r =>
      if Nat.eqb (code c) 101 || Nat.eqb (code c) 69 then
        let '(eneg, r1) :=
          match starts 45 r, starts 43 r with
          | Some r1, _ => (true, r1)
          | None, Some r1 => (false, r1)
          | None, None => (false, r)
          end in
        match digits 0%Z 0 r1 with
        | (_, O, _) => None
        | (ev, _, r2) => Some ((if eneg then - ev else ev)%Z, r2)
        end
      else None
  | EmptyString => None
  end.

(** A number: an optional minus, an integer part without leading zero,
    an optional fraction, an optional exponent.  It is an [int] without
    fraction and exponent, a [float] with either. *)
Definition number (s : string) : option (json * string) :=
  let '(neg, s1) :=
    match starts 45 s with Some r => (true, r) | None => (false, s) end in
  let '(ip, s2, ok) :=
    match starts 48 s1 with
    | Some r => (0%Z, r, true)
    | None => match digits 0%Z 0 s1 with
              | (_, O, _) => (0%Z, s1, false)
              | (v, _, r) => (v, r, true)
              end
    end in
  if ok then
    let '(m, fd, s3, has_frac) :=
      match fraction ip s2 with
      | Some (m, fd, r) => (m, fd, r, true)
      | None => (ip, O, s2, false)
      end in
    let '(ex, s4, has_exp) :=
      match exponent s3 with
      | Some (ev, r) => (ev, r, true)
      | None => (0%Z, s3, false)
      end in
    if has_frac || has_exp
    then Some (JFloat (float_of_decimal neg m (ex - Z.of_nat fd)%Z), s4)
    else Some (JInt (if neg then - ip else ip)%Z, s4)
  else None.

(** The character a one-letter escape denotes. *)
Definition escape (c : ascii) : option ascii :=
  match code c with
  | 34 => Some c | 92 => Some c | 47 => Some c
  | 98 => Some (ascii_of_nat 8) | 102 => Some (ascii_of_nat 12)
  | 110 => Some (ascii_of_nat 10) | 114 => Some (ascii_of_nat 13)
  | 116 => Some (ascii_of_nat 9)
  | _ => None
  end.

Definition hex (c : ascii) : option nat :=
  let n := code c in
  if Nat.leb 48 n && Nat.leb n 57 then Some (n - 48)
  else if Nat.leb 97 n && Nat.leb n 102 then Some (n - 87)
  else if Nat.leb 65 n && Nat.leb n 70 then Some (n - 55)
  else None.

Definition hex4 (a b c d : ascii) : option nat :=
  match hex a, hex b, hex c, hex d with
  | Some x, Some y, Some z, Some w => Some (((x * 16 + y) * 16 + z) * 16 + w)
  | _, _, _, _ => None
  end.

Definition cons_char (c : ascii) (r : option (string * string))
  : option (string * string) :=
  match r with Some (t, rest) => Some (String c t, rest) | None => None end.

(** The text of a string after its opening quote, and what follows the
    closing one.  A control character is refused, as [json.loads] does. *)
Fixpoint chars (s : string) : option (string * string) :=
  match s with
  | EmptyString => None
  | String c r =>
      if Nat.eqb (code c) 34 then Some (EmptyString, r)
      else if Nat.eqb (code c) 92 then
        match r with
        | String e r' =>
            match escape e with
            | Some ch => cons_char ch (chars r')
            | None =>
                match r' with
                | String h1 (String h2 (String h3 (String h4 r''))) =>
                    match Nat.eqb (code e) 117, hex4 h1 h2 h3 h4 with
                    | true, Some n =>
                        if Nat.ltb n 128
                        then cons_char (ascii_of_nat n) (chars r'')
                        else None
                    | _, _ => None
                    end
                | _ => None
                end
            end
        | EmptyString => None
        end
      else if Nat.ltb (code c) 32 || Nat.leb 128 (code c) then None
      else cons_char c (chars r)
  end.

(** [d[k] = v]: a key already there keeps its place and takes the new
    value. *)
Fixpoint set (k : string) (v : json) (d : dict) : dict :=
  match d with
  | [] => [(k, v)]
  | (k', v') :: d' =>
      if String.eqb k k' then (k, v) :: d' else (k', v') :: set k v d'
  end.

Definition literal (w : string) (v : json) (s : string)
  : option (json * string) :=
  if String.prefix w s
  then Some (v, String.substring (String.length w)
                                 (String.length s - String.length w) s)
  else None.

Definition first_of {A} (a b : option A) : option A :=
  match a with Some _ => a | None => b end.

(** A value that is not an array, an object or a string. *)
Definition scalar (s : string) : option (json * string) :=
  first_of (literal "null" JNull s)
 (first_of (literal "true" (JBool true) s)
 (first_of (literal "false" (JBool false) s)
 (first_of (literal "NaN" (JFloat S754_nan) s)
 (first_of (literal "Infinity" (JFloat (S754_infinity false)) s)
 (first_of (literal "-Infinity" (JFloat (S754_infinity true)) s)
           (number s)))))).

(** A value at [s] (no white space before it), the elements of an array
    after its first bracket, the members of an object after its first
    brace; [n] bounds the number of nested calls. *)
Fixpoint value (n : nat) (s : string) : option (json * string) :=
  match n with
  | O => None
  | S n' =>
      match s with
      | EmptyString => None
      | String c r =>
          if Nat.eqb (code c) 91 then
            match starts 93 (skip_ws r) with
            | Some r' => Some (JList [], r')
            | None => elements n' [] (skip_ws r)
            end
          else if Nat.eqb (code c) 123 then
            match starts 125 (skip_ws r) with
            | Some r' => Some (JDict [], r')
            | None => members n' [] (skip_ws r)
            end
          else if Nat.eqb (code c) 34 then
            match chars r with
            | Some (t, r') => Some (JStr t, r')
            | None => None
            end
          else scalar s
      end
  end
with elements (n : nat) (acc : list json) (s : string)
     : option (json * string) :=
  match n with
  | O => None
  | S n' =>
      match value n' s with
      | Some (v, r) =>
          match starts 44 (skip_ws r), starts 93 (skip_ws r) with
          | Some r', _ => elements n' (acc ++ [v])%list (skip_ws r')
          | None, Some r' => Some (JList (acc ++ [v])%list, r')
          | None, None => None
          end
      | None => None
      end
  end
with members (n : nat) (acc : dict) (s : string) : option (json * string) :=
  match n with
  | O => None
  | S n' =>
      match starts 34 s with
      | Some r0 =>
          match chars r0 with
          | Some (k, r1) =>
              match starts 58 (skip_ws r1) with
              | Some r2 =>
                  match value n' (skip_ws r2) with
                  | Some (v, r3) =>
                      match starts 44 (skip_ws r3), starts 125 (skip_ws r3) with
                      | Some r', _ => members n' (set k v acc) (skip_ws r')
                      | None, Some r' => Some (JDict (set k v acc), r')
                      | None, None => None
                      end
                  | None => None
                  end
              | None => None
              end
          | None => None
          end
      | None => None
      end
  end.

Definition loads (s : string) : option json :=
  match value (S (String.length s)) (skip_ws s) with
  | Some (v, r) =>
      match skip_ws r with EmptyString => Some v | _ => None end
  | None => None
  end.

End Json.

Definition float_is_zero (f : spec_float) : bool :=
  match f with S754_zero _ => true | _ => false end.

(** Truth value of a Python object, as [if v:] tests it. *)
Definition truthy (v : json) : bool :=
  match v with
  | JNull => false
  | JBool b => b
  | JInt z => negb (Z.eqb z 0)
  | JFloat f => negb (float_is_zero f)
  | JStr s => PyStr.nonempty s
  | JList l => match l with [] => false | _ => true end
  | JDict d => match d with [] => false | _ => true end
  end.

(** [TimeoutError] is [asyncio.TimeoutError]; [Fault name msg] is any other
    instance of [Exception], of class [name], with [str(e) = msg];
    [Cancelled] stands for the two [BaseException]s that are not
    [Exception]s, [KeyboardInterrupt] and [asyncio.CancelledError]. *)
Inductive exn : Type :=
| TimeoutError
| Fault (name msg : string)
| Cancelled.

Definition is_Exception (e : exn) : bool :=
  match e with Cancelled => false | _ => true end.

Inductive pyres (A : Type) : Type :=
| Ret (a : A)
| Raise (e : exn).
Arguments Ret {A} a.
Arguments Raise {A} e.

(** ** agent_fun.py: intent detection *)

(** The value [detect_tool] returns: [{"tool": "weather_pipeline", "city":
    c}] or [{"tool": t, "args": a}]. *)
Inductive decision : Type :=
| WeatherPipeline (city : string)
| Tool (tool : string) (args : dict).

Definition weather_words : list string := ["weather"; "temperature"; "forecast"].
Definition trivia_words : list string :=
  ["trivia"; "quiz"; "question"; "test me"; "challenge"].
Definition joke_words : list string :=
  ["joke"; "funny"; "laugh"; "humor"; "humour"].
Definition dog_words : list string := ["dog"; "puppy"; "doggo"; "pup"; "woof"].
Definition book_words : list string :=
  ["book"; "read"; "novel"; "recommend"; "fiction"; "story"].

(** [re.search(r"\b(?:in|at|for)\s+([a-zA-Z ]+?)(?:\?|$|\.)", user, re.I)] *)
Definition city_search (user : string) : option string :=
  Regex.search ["in"; "at"; "for"] false user.

(** [re.search(r"\b(?:about|on|topic|genre|like)\s+([a-zA-Z ]+?)(?:\?|$|\.|,)",
    user, re.I)] *)
Definition topic_search (user : string) : option string :=
  Regex.search ["about"; "on"; "topic"; "genre"; "like"] true user.

(** [city = m.group(1).strip() if m else None], and then [if city:]. *)
Definition weather_city (user : string) : option string :=
  match city_search user with
  | Some g => if PyStr.nonempty (PyStr.strip g) then Some (PyStr.strip g) else None
  | None => None
  end.

(** [topic = m.group(1).strip() if m else "fiction"] *)
Definition book_topic (user : string) : string :=
  match topic_search user with
  | Some g => PyStr.strip g
  | None => "fiction"
  end.

Definition detect_tool (user : string) : option decision :=
  let u := PyStr.lower user in
  match (if PyStr.any_in weather_words u then weather_city user else None) with
  | Some city => Some (WeatherPipeline city)
  | None =>
      if PyStr.any_in trivia_words u then Some (Tool "trivia" [])
      else if PyStr.any_in joke_words u then Some (Tool "random_joke" [])
      else if PyStr.any_in dog_words u then Some (Tool "random_dog" [])
      else if PyStr.any_in book_words u then
        Some (Tool "book_recs"
                   [("topic", JStr (book_topic user)); ("limit", JInt 3)])
      else None
  end.

(** ** agent_fun.py: the invocation channel *)

(** A block of a tool result: [text] is the block's string attribute
    [text] when it has one, [rendering] is [str(b)]. *)
Record ContentBlock : Type := { text : option string; rendering : string }.

Record CallToolResult : Type :=
  { content : list ContentBlock; model_dump_json : string }.

(** What awaiting a coroutine gives. *)
Inductive outcome : Type :=
| Returns (r : CallToolResult)
| Raises (e : exn).

(** The remote call [session.call_tool(name, args)]: it completes after
    [t] time units with an outcome, or never does. *)
Inductive remote : Type :=
| After (t : N) (o : outcome)
| Never.

(** [asyncio.wait_for(aw, timeout)] *)
Definition wait_for (aw : remote) (timeout : N) : outcome :=
  match aw with
  | After t o => if (t <=? timeout)%N then o else Raises TimeoutError
  | Never => Raises TimeoutError
  end.

(** [b.text if hasattr(b, "text") and isinstance(b.text, str) else str(b)] *)
Definition block_text (b : ContentBlock) : string :=
  match text b with Some t => t | None => rendering b end.

Definition timeout_bound : N := 20.

Definition timed_out (name : string) : string :=
  "[Error: '" ++ name ++ "' timed out]".

Definition failure (msg : string) : string := "[Error: " ++ msg ++ "]".

(** [str(e)] *)
Definition str_exn (e : exn) : string :=
  match e with Fault _ msg => msg | _ => EmptyString end.

Definition call_tool (session : string -> dict -> remote)
           (name : string) (args : dict) : pyres string :=
  match wait_for (session name args) timeout_bound with
  | Returns result =>
      match content result with
      | [] => Ret (model_dump_json result)
      | bs => Ret (PyStr.join PyStr.nl (map block_text bs))
      end
  | Raises TimeoutError => Ret (timed_out name)
  | Raises e => if is_Exception e then Ret (failure (str_exn e)) else Raise e
  end.

(** ** agent_fun.py: the conversation loop *)

(** [f"Agent: {answer}\n\n"] *)
Definition agent_line (answer : string) : string :=
  "Agent: " ++ answer ++ PyStr.nl ++ PyStr.nl.

(** A message of the history: [{"role": r, "content": c}]. *)
Record Message : Type := { role : string; content_of : string }.

Definition SYSTEM : string :=
  "You are a cheerful weekend assistant. "
  ++ "When you receive tool data, present it naturally in plain English — no JSON, no code. "
  ++ "For trivia, show the question and all options clearly, then reveal the answer. "
  ++ "For jokes, just say the joke. "
  ++ "For weather, give a friendly summary. "
  ++ "Keep replies short and warm.".

Definition system_message : Message := {| role := "system"; content_of := SYSTEM |}.

(** One call through the session: the tool's name and its arguments. *)
Definition call : Type := (string * dict)%type.

(** What the loop changes: the history list, the text written to standard
    output (one entry per write), and the calls made on the session so
    far, oldest first. *)
Record state : Type :=
  { history : list Message; stdout : list string; calls : list call }.

Definition initial : state :=
  {| history := [system_message]; stdout := []; calls := [] |}.

(** A computation over the loop's state that may raise. *)
Definition M (A : Type) : Type := state -> pyres A * state.

Definition ret {A} (a : A) : M A := fun st => (Ret a, st).

Definition raise {A} (e : exn) : M A := fun st => (Raise e, st).

Definition bind {A B} (m : M A) (k : A -> M B) : M B :=
  fun st =>
    match m st with
    | (Ret a, st') => k a st'
    | (Raise e, st') => (Raise e, st')
    end.

(** [try: body except Exception: handler] *)
Definition try_except {A} (body : M A) (handler : exn -> M A) : M A :=
  fun st =>
    match body st with
    | (Ret a, st') => (Ret a, st')
    | (Raise e, st') => if is_Exception e then handler e st' else (Raise e, st')
    end.

Declare Scope py_scope.
Delimit Scope py_scope with py.
Notation "x <- m ;; k" := (bind m (fun x => k))
  (at level 61, m at next level, right associativity) : py_scope.
Notation "m ;;; k" := (bind m (fun _ => k))
  (at level 61, right associativity) : py_scope.

Definition write (s : string) : M unit :=
  fun st => (Ret tt, {| history := history st; stdout := (stdout st ++ [s])%list;
                        calls := calls st |}).

(** [print(s)] *)
Definition print (s : string) : M unit := write (s ++ PyStr.nl).

(** [history.append(m)] *)
Definition append (m : Message) : M unit :=
  fun st => (Ret tt, {| history := (history st ++ [m])%list; stdout := stdout st;
                        calls := calls st |}).

Definition get_history : M (list Message) := fun st => (Ret (history st), st).

(** What one read of standard input meets: a line, the end of the input,
    or an interrupt. *)
Inductive read_event : Type :=
| Line (raw : string)
| Eof
| Interrupt.

(** [sys.stdin.readline()]: the line with its newline, the empty string at
    the end of the input, [KeyboardInterrupt] on an interrupt. *)
Definition readline (ev : read_event) : pyres string :=
  match ev with
  | Line raw => Ret raw
  | Eof => Ret EmptyString
  | Interrupt => Raise Cancelled
  end.

(** How one pass through the body of [while True] ends. *)
Inductive status : Type :=
| Continue
| Farewell
| Crashed (e : exn).

Definition number_of_calls (name : string) (cs : list call) : nat :=
  length (filter (fun c => String.eqb (fst c) name) cs).

Section Orchestrator.

(** The MCP session: what a call answers, given the calls made before. *)
Variable session : list call -> string -> dict -> remote.

(** [json.loads]: [None] when it raises. *)
Variable json_loads : string -> option json.

(** [chat(model="mistral:7b", messages=..., options=...)], read at
    [resp["message"]["content"]]. *)
Variable chat : list Message -> pyres (option string).

(** [await call_tool(session, name, args)] *)
Definition invoke (name : string) (args : dict) : M string :=
  fun st =>
    (call_tool (session (calls st)) name args,
     {| history := history st; stdout := stdout st;
        calls := (calls st ++ [(name, args)])%list |}).

Definition ask_llm (messages : list Message) : pyres string :=
  match chat messages with
  | Ret (Some c) => Ret (PyStr.strip c)
  | Ret None => Ret (PyStr.strip EmptyString)
  | Raise e => Raise e
  end.

(** [coords = json.loads(raw)] then [coords.get(k)] twice. *)
Definition coordinates (raw : string) : pyres (json * json) :=
  match json_loads raw with
  | None => Raise (Fault "JSONDecodeError" "Expecting value")
  | Some (JDict d) =>
      Ret (Dict.get_or "latitude" JNull d, Dict.get_or "longitude" JNull d)
  | Some _ => Raise (Fault "AttributeError" "object has no attribute 'get'")
  end.

(** Lines 92 to 104: the two stages of the weather flow. *)
Definition weather_pipeline (city : string) : M string :=
  (raw <- invoke "city_to_coords" [("city", JStr city)] ;;
   try_except
     (match coordinates raw with
      | Raise e => raise e
      | Ret (lat, lon) =>
          if truthy lat && truthy lon then
            weather <- invoke "weather_summary"
                              [("latitude", lat); ("longitude", lon)] ;;
            ret ("Weather for " ++ city ++ ":" ++ PyStr.nl ++ weather)
          else ret ("Could not find city '" ++ city ++ "'.")
      end)
     (fun _ => ret raw))%py.

(** Lines 86 to 107: [tool_result]. *)
Definition tool_result (user : string) : M (option string) :=
  match detect_tool user with
  | Some (WeatherPipeline city) =>
      (r <- weather_pipeline city ;; ret (Some r))%py
  | Some (Tool tname args) => (r <- invoke tname args ;; ret (Some r))%py
  | None => ret None
  end.

Definition grounding (user result : string) : string :=
  "User asked: " ++ PyStr.dquote ++ user ++ PyStr.dquote ++ PyStr.nl ++ PyStr.nl
  ++ "Tool returned:" ++ PyStr.nl ++ result ++ PyStr.nl ++ PyStr.nl
  ++ "Reply to the user naturally in plain English. No JSON or code.".

(** Lines 109 to 116: [if tool_result:] *)
Definition prompt_for (user : string) (result : option string) : string :=
  match result with
  | Some r => if PyStr.nonempty r then grounding user r else user
  | None => user
  end.

(** Lines 86 to 124: one turn. *)
Definition turn (user : string) : M unit :=
  (result <- tool_result user ;;
   append {| role := "user"; content_of := prompt_for user result |} ;;;
   messages <- get_history ;;
   answer <- (fun st => (ask_llm messages, st)) ;;
   write (agent_line answer) ;;;
   append {| role := "assistant"; content_of := answer |})%py.

(** [not user or user.lower() in {"exit", "quit"}] *)
Definition leaving (user : string) : bool :=
  negb (PyStr.nonempty user)
  || String.eqb (PyStr.lower user) "exit"
  || String.eqb (PyStr.lower user) "quit".

(** One pass through the body of [while True] (lines 73 to 124). *)
Definition loop_body (ev : read_event) (st : state) : status * state :=
  match write "You: " st with
  | (_, st1) =>
      match readline ev with
      | Raise _ => (Farewell, snd (print (PyStr.nl ++ "Goodbye!") st1))
      | Ret raw =>
          let user := PyStr.strip raw in
          if leaving user then (Farewell, snd (print "Goodbye!" st1))
          else
            match turn user st1 with
            | (Ret _, st2) => (Continue, st2)
            | (Raise e, st2) => (Crashed e, st2)
            end
      end
  end.

(** The loop over what standard input holds; past its last event the
    input is at its end. *)
Fixpoint loop (stdin : list read_event) (st : state) : status * state :=
  match stdin with
  | [] => loop_body Eof st
  | ev :: rest =>
      match loop_body ev st with
      | (Continue, st') => loop rest st'
      | stopped => stopped
      end
  end.

Definition agent_loop (stdin : list read_event) : status * state :=
  loop stdin initial.

End Orchestrator.

(** ** server_fun.py: the tools *)

Declare Scope res_scope.
Delimit Scope res_scope with res.

Module Server.

Definition pbind {A B} (m : pyres A) (k : A -> pyres B) : pyres B :=
  match m with Ret a => k a | Raise e => Raise e end.

Notation "x <- m ;; k" := (pbind m (fun x => k))
  (at level 61, m at next level, right associativity) : res_scope.

(** [try: body except Exception as e: handler] *)
Definition catch {A} (body : pyres A) (handler : exn -> pyres A) : pyres A :=
  match body with
  | Ret a => Ret a
  | Raise e => if is_Exception e then handler e else Raise e
  end.

Fixpoint map_res {A B} (f : A -> pyres B) (l : list A) : pyres (list B) :=
  match l with
  | [] => Ret []
  | a :: l' => (b <- f a ;; bs <- map_res f l' ;; Ret (b :: bs))%res
  end.

(** A [requests.Response], by the two methods the tools call on it:
    [raise_for_status] raises or not, [json_] is what [r.json()] gives. *)
Record Response : Type :=
  { raise_for_status : option exn; json_ : pyres json }.

Definition type_name (v : json) : string :=
  match v with
  | JNull => "NoneType" | JBool _ => "bool" | JInt _ => "int"
  | JFloat _ => "float" | JStr _ => "str" | JList _ => "list"
  | JDict _ => "dict"
  end.

(** The integer [k] as a float. *)
Definition float_of_Z (k : Z) : spec_float := binary_normalize 53 1024 k 0 false.

Definition Z_of_bool (b : bool) : Z := if b then 1%Z else 0%Z.

Definition decimal (z : Z) : string :=
  DecimalString.NilZero.string_of_int (Z.to_int z).

(** The weather codes of [weather_summary] and their wording. *)
Definition descriptions : list (Z * string) :=
  [(0, "clear sky"); (1, "mainly clear"); (2, "partly cloudy");
   (3, "overcast"); (45, "foggy"); (51, "light drizzle");
   (61, "light rain"); (63, "rain"); (65, "heavy rain");
   (71, "light snow"); (73, "snow"); (80, "rain showers");
   (95, "thunderstorm")]%Z.

Definition labels : list string := ["A"; "B"; "C"; "D"].

Definition placeholder : string :=
  "https://via.placeholder.com/500?text=No+Dog+Image".

Fixpoint chars_of (s : string) : list json :=
  match s with
  | EmptyString => []
  | String c s' => JStr (String c EmptyString) :: chars_of s'
  end.

(** [l[:limit]] on a list. *)
Definition list_upto {A} (limit : Z) (l : list A) : list A :=
  if (0 <=? limit)%Z then firstn (Z.to_nat limit) l
  else firstn (length l - Z.to_nat (- limit)) l.

(** [s[:limit]] on a string. *)
Definition string_upto (limit : Z) (s : string) : string :=
  if (0 <=? limit)%Z then String.substring 0 (Z.to_nat limit) s
  else String.substring 0 (String.length s - Z.to_nat (- limit)) s.

Section Tools.

(** [requests.get(url, params=..., timeout=...)] *)
Variable requests_get : string -> dict -> pyres Response.

(** The message CPython gives a built-in error of class [cls] raised
    on the operand [v]. *)
Variable describe : string -> json -> string.

(** [html.unescape], [random.shuffle] (by the list it leaves),
    [==] between two values, [round(x, 1)] on a float, and [str] of a
    float, a list or a dict. *)
Variable html_unescape : json -> pyres json.
Variable shuffle : list json -> list json.
Variable equal : json -> json -> bool.
Variable round1 : spec_float -> spec_float.
Variable repr : json -> string.

Definition builtin_error {A} (cls : string) (v : json) : pyres A :=
  Raise (Fault cls (describe cls v)).

(** [r = requests.get(...)], [r.raise_for_status()], [r.json()] *)
Definition fetch (url : string) (params : dict) : pyres json :=
  (r <- requests_get url params ;;
   match raise_for_status r with
   | Some e => Raise e
   | None => json_ r
   end)%res.

(** [v.get(k, dflt)] *)
Definition attr_get (v : json) (k : string) (dflt : json) : pyres json :=
  match v with
  | JDict d => Ret (Dict.get_or k dflt d)
  | _ => builtin_error "AttributeError" v
  end.

(** [v[k]] for a string [k] *)
Definition item (v : json) (k : string) : pyres json :=
  match v with
  | JDict d =>
      match Dict.get k d with
      | Some x => Ret x
      | None => builtin_error "KeyError" (JStr k)
      end
  | _ => builtin_error "TypeError" v
  end.

(** [v[0]] *)
Definition first (v : json) : pyres json :=
  match v with
  | JList (x :: _) => Ret x
  | JStr (String c _) => Ret (JStr (String c EmptyString))
  | JList [] | JStr EmptyString => builtin_error "IndexError" v
  | JDict _ => builtin_error "KeyError" (JInt 0)
  | _ => builtin_error "TypeError" v
  end.

(** [v[:limit]]; on a dict the error is a [KeyError] from Python 3.12. *)
Definition upto (limit : Z) (v : json) : pyres json :=
  match v with
  | JList l => Ret (JList (list_upto limit l))
  | JStr s => Ret (JStr (string_upto limit s))
  | _ => builtin_error "TypeError" v
  end.

(** [for x in v] *)
Definition iterate (v : json) : pyres (list json) :=
  match v with
  | JList l => Ret l
  | JStr s => Ret (chars_of s)
  | JDict d => Ret (map (fun kv => JStr (fst kv)) d)
  | _ => builtin_error "TypeError" v
  end.

(** [f"{v}"] *)
Definition fmt (v : json) : string :=
  match v with
  | JStr s => s
  | JInt z => decimal z
  | JBool true => "True"
  | JBool false => "False"
  | JNull => "None"
  | _ => repr v
  end.

(** [v < k] for an integer literal [k] *)
Definition less_than (v : json) (k : Z) : pyres bool :=
  match v with
  | JInt z => Ret (z <? k)%Z
  | JBool b => Ret (Z_of_bool b <? k)%Z
  | JFloat f => Ret (SFltb f (float_of_Z k))
  | _ => builtin_error "TypeError" v
  end.

(** [round(v, 1)] *)
Definition round_1 (v : json) : pyres json :=
  match v with
  | JInt z => Ret (JInt z)
  | JBool b => Ret (JInt (Z_of_bool b))
  | JFloat f => Ret (JFloat (round1 f))
  | _ => builtin_error "TypeError" v
  end.

(** [descriptions.get(code, "unknown weather")] *)
Definition condition_of (code : json) : pyres string :=
  let named (p : Z -> bool) :=
    match find (fun kv => p (fst kv)) descriptions with
    | Some kv => snd kv
    | None => "unknown weather"
    end in
  match code with
  | JInt z => Ret (named (Z.eqb z))
  | JBool b => Ret (named (Z.eqb (Z_of_bool b)))
  | JFloat f => Ret (named (fun k => SFeqb f (float_of_Z k)))
  | JNull | JStr _ => Ret "unknown weather"
  | JList _ | JDict _ => builtin_error "TypeError" code
  end.

Definition city_to_coords (city : string) : pyres json :=
  catch
    (data <- fetch "https://geocoding-api.open-meteo.com/v1/search"
                   [("name", JStr city); ("count", JInt 1);
                    ("language", JStr "en")] ;;
     results <- attr_get data "results" (JList []) ;;
     if negb (truthy results)
     then Ret (JDict [("error", JStr ("City '" ++ city ++ "' not found"))])
     else
       loc <- first results ;;
       name <- item loc "name" ;;
       country <- attr_get loc "country" JNull ;;
       latitude <- item loc "latitude" ;;
       longitude <- item loc "longitude" ;;
       timezone <- attr_get loc "timezone" JNull ;;
       Ret (JDict [("city", name); ("country", country);
                   ("latitude", latitude); ("longitude", longitude);
                   ("timezone", timezone)]))%res
    (fun e => Ret (JDict [("error", JStr (str_exn e))])).

Definition get_weather (latitude longitude : spec_float) : pyres json :=
  (data <- fetch "https://api.open-meteo.com/v1/forecast"
                 [("latitude", JFloat latitude);
                  ("longitude", JFloat longitude);
                  ("current", JStr "temperature_2m,weather_code,wind_speed_10m");
                  ("timezone", JStr "auto");
                  ("temperature_unit", JStr "fahrenheit")] ;;
   attr_get data "current" (JDict []))%res.

(** Lines 73 to 82: [feel]. *)
Definition feel_of (temp_f : json) : pyres string :=
  (freezing <- less_than temp_f 32 ;;
   if freezing then Ret "Freezing cold — perfect for hot cocoa indoors!"
   else
     chilly <- less_than temp_f 50 ;;
     if chilly then Ret "Chilly — grab a cozy sweater."
     else
       mild <- less_than temp_f 70 ;;
       if mild then Ret "Pleasant and mild."
       else
         warm <- less_than temp_f 85 ;;
         if warm then Ret "Warm and lovely."
         else Ret "Hot — stay hydrated!")%res.

Definition weather_summary (latitude longitude : spec_float) : pyres json :=
  (data <- get_weather latitude longitude ;;
   temp_f <- attr_get data "temperature_2m" JNull ;;
   match temp_f with
   | JNull => Ret (JDict [("error", JStr "Could not retrieve weather")])
   | _ =>
       wind_kmh <- attr_get data "wind_speed_10m" (JInt 0) ;;
       code <- attr_get data "weather_code" (JInt 0) ;;
       condition <- condition_of code ;;
       feel <- feel_of temp_f ;;
       temperature <- round_1 temp_f ;;
       wind <- round_1 wind_kmh ;;
       Ret (JDict
              [("temperature_f", temperature);
               ("condition", JStr condition);
               ("wind_kmh", wind);
               ("summary",
                JStr ("It's currently " ++ fmt temp_f ++ "°F and "
                      ++ condition ++ " with winds around "
                      ++ fmt wind_kmh ++ " km/h. " ++ feel))])
   end)%res.

(** [f"{i+1}. {t}"] over [enumerate(titles)], counting from [i]. *)
Fixpoint numbered (i : Z) (titles : list json) : list string :=
  match titles with
  | [] => []
  | t :: ts => (decimal (i + 1) ++ ". " ++ fmt t) :: numbered (i + 1) ts
  end.

Definition book_recs (topic : string) (limit : Z) : pyres json :=
  catch
    (data <- fetch "https://openlibrary.org/search.json"
                   [("q", JStr topic); ("limit", JInt limit)] ;;
     found <- attr_get data "docs" (JList []) ;;
     docs <- upto limit found ;;
     if negb (truthy docs)
     then Ret (JStr ("Sorry, no books found for '" ++ topic ++ "'."))
     else
       ds <- iterate docs ;;
       titles <- map_res (fun d => attr_get d "title" (JStr "Unknown Title")) ds ;;
       Ret (JStr ("Here are some " ++ topic ++ " books:" ++ PyStr.nl
                  ++ PyStr.join PyStr.nl (numbered 0 titles))))%res
    (fun e => Ret (JStr ("Error fetching books: " ++ str_exn e))).

Definition random_joke : pyres json :=
  (data <- fetch "https://v2.jokeapi.dev/joke/Any?type=single&safe-mode" [] ;;
   joke <- attr_get data "joke" (JStr "No joke found") ;;
   Ret (JDict [("joke", joke)]))%res.

Definition random_dog : pyres json :=
  catch
    (data <- fetch "https://dog.ceo/api/breeds/image/random" [] ;;
     url <- attr_get data "message" JNull ;;
     if negb (truthy url) then Ret (JStr placeholder)
     else
       match url with
       | JStr s =>
           if String.prefix "http" s then Ret url else Ret (JStr placeholder)
       | _ => builtin_error "AttributeError" url
       end)%res
    (fun _ => Ret (JStr placeholder)).

(** [labeled[label]] *)
Definition labeled_at (labeled : list (string * json)) (label : string)
  : pyres json :=
  match Dict.get label labeled with
  | Some v => Ret v
  | None => builtin_error "KeyError" (JStr label)
  end.

Definition trivia : pyres json :=
  (body <- fetch "https://opentdb.com/api.php?amount=1&type=multiple" [] ;;
   data <- attr_get body "results" (JList []) ;;
   if negb (truthy data) then Ret (JStr "No trivia available.")
   else
     q <- first data ;;
     q_question <- item q "question" ;;
     question <- html_unescape q_question ;;
     q_correct <- item q "correct_answer" ;;
     correct <- html_unescape q_correct ;;
     q_incorrect <- item q "incorrect_answers" ;;
     xs <- iterate q_incorrect ;;
     incorrect <- map_res html_unescape xs ;;
     let options := shuffle (incorrect ++ [correct])%list in
     let labeled := combine labels options in
     correct_label <-
       match find (fun kv => equal (snd kv) correct) labeled with
       | Some kv => Ret (fst kv)
       | None => Raise (Fault "StopIteration" EmptyString)
       end ;;
     options_lines <-
       map_res (fun label =>
                  v <- labeled_at labeled label ;;
                  Ret ("  " ++ label ++ ") " ++ fmt v)) labels ;;
     let answer :=
       PyStr.nl ++ "Answer: " ++ correct_label ++ ") " ++ fmt correct in
     Ret (JStr (PyStr.join PyStr.nl
                  (("Question: " ++ fmt question) :: EmptyString
                   :: (options_lines ++ [answer])%list))))%res.

End Tools.

End Server.


(** The state once one call has gone through the session. *)
Definition logged (name : string) (args : dict) (st : state) : state :=
  {| history := history st; stdout := stdout st;
     calls := (calls st ++ [(name, args)])%list |}.

(** The arguments of the geocode call: [{"city": city}]. *)
Definition geocode_args (city : string) : dict := [("city", JStr city)].

Definition city_not_found (city : string) : string :=
  "Could not find city '" ++ city ++ "'.".

Definition user_message (content : string) : Message :=
  {| role := "user"; content_of := content |}.

Definition assistant_message (content : string) : Message :=
  {| role := "assistant"; content_of := content |}.

(** The state once the prompt is written. *)
Definition prompted (st : state) : state :=
  {| history := history st; stdout := (stdout st ++ ["You: "])%list;
     calls := calls st |}.

(** The farewell the loop prints: [print("Goodbye!")], or
    [print("\nGoodbye!")] on an interrupt. *)
Definition farewell (ev : read_event) : string :=
  match ev with
  | Interrupt => PyStr.nl ++ "Goodbye!" ++ PyStr.nl
  | _ => "Goodbye!" ++ PyStr.nl
  end.

(** The state the loop ends in when the read at [st] makes it leave. *)
Definition left_at (ev : read_event) (st : state) : state :=
  {| history := history st;
     stdout := (stdout st ++ ["You: "; farewell ev])%list;
     calls := calls st |}.

(** ** The words of the specification *)

(** The states the loop is in at the top of [while True] after [n] turns
    have completed. *)
Inductive after_turns (session : list call -> string -> dict -> remote)
          (json_loads : string -> option json)
          (chat : list Message -> pyres (option string))
  : nat -> state -> Prop :=
| at_start : after_turns session json_loads chat 0 initial
| turn_done n st ev st' :
    after_turns session json_loads chat n st ->
    loop_body session json_loads chat ev st = (Continue, st') ->
    after_turns session json_loads chat (S n) st'.

(** [n] user/assistant pairs, by their roles. *)
Fixpoint alternating (n : nat) : list string :=
  match n with
  | O => []
  | S n' => "user" :: "assistant" :: alternating n'
  end.

(** The faults of a remote call are [Exception]s: nothing cancels the
    task that awaits it. *)
Definition exception_only (aw : remote) : Prop :=
  forall t e, aw = After t (Raises e) -> is_Exception e = true.

(** The remote call exceeds the bound. *)
Definition exceeds (aw : remote) (bound : N) : Prop :=
  aw = Never \/ exists t o, aw = After t o /\ (bound < t)%N.

(** A coordinate equal to zero: [0], [0.0] or [-0.0]. *)
Definition is_zero (v : json) : bool :=
  match v with
  | JInt z => Z.eqb z 0
  | JFloat f => float_is_zero f
  | _ => false
  end.

(** The five categories of the detector, in the order the specification
    lists them. *)
Inductive category : Type :=
| Weather
| Trivia
| Joke
| DogImage
| BookRecommendation.

Definition priority : list category :=
  [Weather; Trivia; Joke; DogImage; BookRecommendation].

Definition keywords (c : category) : list string :=
  match c with
  | Weather => ["weather"; "temperature"; "forecast"]
  | Trivia => ["trivia"; "quiz"; "question"; "test me"; "challenge"]
  | Joke => ["joke"; "funny"; "laugh"; "humor"; "humour"]
  | DogImage => ["dog"; "puppy"; "doggo"; "pup"; "woof"]
  | BookRecommendation =>
      ["book"; "read"; "novel"; "recommend"; "fiction"; "story"]
  end.

(** A keyword of the category occurs in the lowercased text. *)
Definition mentions (c : category) (user : string) : bool :=
  PyStr.any_in (keywords c) (PyStr.lower user).

(** The category is the one the text selects: its keyword occurs and, for
    weather, a city was captured as well. *)
Definition fires (user : string) (c : category) : bool :=
  match c with
  | Weather =>
      mentions Weather user
      && match weather_city user with Some _ => true | None => false end
  | _ => mentions c user
  end.

(** The tool call of a category. *)
Definition call_of (user : string) (c : category) : option decision :=
  match c with
  | Weather => option_map WeatherPipeline (weather_city user)
  | Trivia => Some (Tool "trivia" [])
  | Joke => Some (Tool "random_joke" [])
  | DogImage => Some (Tool "random_dog" [])
  | BookRecommendation =>
      Some (Tool "book_recs"
                 [("topic", JStr (book_topic user)); ("limit", JInt 3)])
  end.

(** First matching category wins. *)
Definition first_match (user : string) : option decision :=
  match find (fires user) priority with
  | Some c => call_of user c
  | None => None
  end.



(** Every character of [x] is an ASCII letter or a space. *)
Fixpoint letters_and_spaces (x : string) : bool :=
  match x with
  | EmptyString => true
  | String c x' => Regex.in_class c && letters_and_spaces x'
  end.

(** [x] has a letter. *)
Fixpoint has_letter (x : string) : bool :=
  match x with
  | EmptyString => false
  | String c x' => PyStr.is_alpha c || has_letter x'
  end.

(** The read ends the loop, in the words of the specification: the line,
    trimmed as the loop reads it, is empty or is [exit] or [quit] in any
    letter case, or the input ended or was interrupted. *)
Definition ends_loop (ev : read_event) : bool :=
  match ev with
  | Line raw =>
      let line := PyStr.strip raw in
      String.eqb line EmptyString
      || String.eqb (PyStr.lower line) "exit"
      || String.eqb (PyStr.lower line) "quit"
  | Eof => true
  | Interrupt => true
  end.

(** The text is ASCII: every character is below 128.  On such text the
    character classes of the embedding are those of Python. *)
Fixpoint is_ascii (s : string) : bool :=
  match s with
  | EmptyString => true
  | String c s' => Nat.ltb (PyStr.code c) 128 && is_ascii s'
  end.

(** The line read, when there is one, is ASCII. *)
Definition ascii_event (ev : read_event) : Prop :=
  match ev with
  | Line raw => is_ascii raw = true
  | Eof => True
  | Interrupt => True
  end.

(** ** Concrete collaborators, to run the development *)

Module Scenario.

(** A result holding one text block. *)
Definition text_result (s : string) : CallToolResult :=
  {| content := [{| text := Some s; rendering := s |}];
     model_dump_json := "{}" |}.

(** A session that never answers. *)
Definition silent : list call -> string -> dict -> remote :=
  fun _ _ _ => Never.

(** A session that answers each tool at once with the text the table
    gives it, and never answers a tool the table leaves out. *)
Definition answering (table : list (string * string))
  : list call -> string -> dict -> remote :=
  fun _ name _ =>
    match find (fun row => String.eqb (fst row) name) table with
    | Some row => After 1 (Returns (text_result (snd row)))
    | None => Never
    end.

(** A session whose every call fails at once with a protocol error. *)
Definition broken : list call -> string -> dict -> remote :=
  fun _ _ _ => After 2 (Raises (Fault "McpError" "Connection closed")).

(** A model that always gives the same reply. *)
Definition replying (reply : string) : list Message -> pyres (option string) :=
  fun _ => Ret (Some reply).

(** A machine without network: every request fails to connect. *)
Definition offline : string -> dict -> pyres Server.Response :=
  fun _ _ => Raise (Fault "ConnectionError" "Network is unreachable").

Definition q : string := PyStr.dquote.

(** [{"error": "City 'Atlantis' not found"}] *)
Definition not_found_text : string :=
  "{" ++ q ++ "error" ++ q ++ ": " ++ q ++ "City 'Atlantis' not found" ++ q ++ "}".

(** A place on the equator:
    [{"city": "Quito", "country": "Ecuador", "latitude": 0.0, "longitude": -78.5}] *)
Definition equator_text : string :=
  "{" ++ q ++ "city" ++ q ++ ": " ++ q ++ "Quito" ++ q ++ ", "
  ++ q ++ "country" ++ q ++ ": " ++ q ++ "Ecuador" ++ q ++ ", "
  ++ q ++ "latitude" ++ q ++ ": 0.0, "
  ++ q ++ "longitude" ++ q ++ ": -78.5}".

(** [{"joke": "I told my computer a joke. It did not get the byte."}] *)
Definition joke_text : string :=
  "{" ++ q ++ "joke" ++ q ++ ": " ++ q
  ++ "I told my computer a joke. It did not get the byte." ++ q ++ "}".

(** A tool host whose joke tool answers with a joke. *)
Definition host : list call -> string -> dict -> remote :=
  answering [("random_joke", joke_text)].

(** A tool host whose joke tool answers with an empty text. *)
Definition mute_host : list call -> string -> dict -> remote :=
  answering [("random_joke", EmptyString)].

(** The line a user types to ask for a joke, as [readline] gives it. *)
Definition joke_line : string := "tell me a joke" ++ PyStr.nl.

End Scenario.

(** ** Further notions *)

(** The tools [server_fun.py] registers with [@mcp.tool()]. *)
Definition server_tools : list string :=
  ["city_to_coords"; "get_weather"; "weather_summary"; "book_recs";
   "random_joke"; "random_dog"; "trivia"].

(** The arguments of the weather call: [{"latitude": lat, "longitude": lon}]. *)
Definition weather_args (lat lon : json) : dict :=
  [("latitude", lat); ("longitude", lon)].

(** Two texts that differ at most in the case of their letters. *)
Definition same_letters (a b : string) : Prop := PyStr.lower a = PyStr.lower b.

(** Two results of a search that agree up to the case of letters. *)
Definition same_capture (x y : option string) : Prop :=
  match x, y with
  | Some g, Some h => same_letters g h
  | None, None => True
  | _, _ => False
  end.

(** Two characters before a position that agree up to case. *)
Definition same_before (x y : option ascii) : Prop :=
  match x, y with
  | Some c, Some d => PyStr.lower_char c = PyStr.lower_char d
  | None, None => True
  | _, _ => False
  end.

(** Two argument values equal up to the case of a text. *)
Definition same_value (v w : json) : Prop :=
  match v, w with
  | JStr s, JStr t => same_letters s t
  | _, _ => v = w
  end.

(** Two decisions for the same tool, with arguments equal up to case. *)
Definition same_decision (x y : option decision) : Prop :=
  match x, y with
  | None, None => True
  | Some (WeatherPipeline c1), Some (WeatherPipeline c2) => same_letters c1 c2
  | Some (Tool n1 a1), Some (Tool n2 a2) =>
      n1 = n2
      /\ Forall2 (fun p q => fst p = fst q /\ same_value (snd p) (snd q)) a1 a2
  | _, _ => False
  end.

(** The model answers every request. *)
Definition responsive (chat : list Message -> pyres (option string)) : Prop :=
  forall messages, exists c, chat messages = Ret c.

(** Nothing cancels a call on the session. *)
Definition uninterrupted (session : list call -> string -> dict -> remote)
  : Prop :=
  forall cs name args, exception_only (session cs name args).

(** A call to a tool the server has. *)
Definition registered (c : call) : Prop := In (fst c) server_tools.

(** The replies a history records, oldest first. *)
Definition replies (h : list Message) : list string :=
  map content_of (filter (fun m => String.eqb (role m) "assistant") h).

(** What the loop has written once it has printed these replies: a prompt
    before each, and each on its [Agent:] line. *)
Definition transcript (answers : list string) : list string :=
  flat_map (fun a => ["You: "; agent_line a]) answers.

(** An ordinary line: one that does not make the loop leave. *)
Definition ordinary (ev : read_event) : Prop := ends_loop ev = false.

(** The two shapes of what [city_to_coords] returns. *)
Definition error_mapping (v : json) : Prop :=
  exists msg, v = JDict [("error", JStr msg)].

Definition place_mapping (v : json) : Prop :=
  exists name country latitude longitude timezone,
    v = JDict [("city", name); ("country", country); ("latitude", latitude);
               ("longitude", longitude); ("timezone", timezone)].

(** A response that passes its status check and whose body decodes to
    [body]. *)
Definition answered (body : json) : Server.Response :=
  {| Server.raise_for_status := None; Server.json_ := Ret body |}.

Definition geocoding_url : string :=
  "https://geocoding-api.open-meteo.com/v1/search".
Definition forecast_url : string := "https://api.open-meteo.com/v1/forecast".
Definition books_url : string := "https://openlibrary.org/search.json".
Definition dog_url : string := "https://dog.ceo/api/breeds/image/random".
Definition trivia_url : string :=
  "https://opentdb.com/api.php?amount=1&type=multiple".

(** The title [book_recs] lists for a search result:
    [d.get("title", "Unknown Title")]. *)
Definition title_of (doc : json) : json :=
  match doc with
  | JDict d => Dict.get_or "title" (JStr "Unknown Title") d
  | _ => JNull
  end.

Definition is_object (v : json) : Prop := exists d, v = JDict d.

(** One step back through a chain of binds that returned: the bound
    computation returned too. *)
Ltac bind_step H :=
  match type of H with
  | Server.pbind ?m _ = Ret _ =>
      let E := fresh "E" in
      destruct m eqn:E; cbn [Server.pbind] in H; [| discriminate H]
  end.

(** ** More concrete collaborators *)

Module Sample.

Definition q : string := PyStr.dquote.

(** [{"city": "Paris", "latitude": 48.85, "longitude": 2.35}] *)
Definition paris_text : string :=
  "{" ++ q ++ "city" ++ q ++ ": " ++ q ++ "Paris" ++ q ++ ", "
  ++ q ++ "latitude" ++ q ++ ": 48.85, "
  ++ q ++ "longitude" ++ q ++ ": 2.35}".

(** The two coordinates as [json.loads] reads them. *)
Definition paris_latitude : json :=
  JFloat (S754_finite false 6875026306157773 (-47)).
Definition paris_longitude : json :=
  JFloat (S754_finite false 5291729562160333 (-51)).

(** [{"temperature_f": 59, "condition": "overcast", "wind_kmh": 12}] *)
Definition overcast_text : string :=
  "{" ++ q ++ "temperature_f" ++ q ++ ": 59, "
  ++ q ++ "condition" ++ q ++ ": " ++ q ++ "overcast" ++ q ++ ", "
  ++ q ++ "wind_kmh" ++ q ++ ": 12}".

(** A tool host that knows Paris and its weather, and a joke. *)
Definition host : list call -> string -> dict -> remote :=
  Scenario.answering [("city_to_coords", paris_text);
                      ("weather_summary", overcast_text);
                      ("random_joke", Scenario.joke_text)].

(** [{"error": "Network is unreachable"}] *)
Definition unreachable_text : string :=
  "{" ++ q ++ "error" ++ q ++ ": " ++ q ++ "Network is unreachable" ++ q ++ "}".

(** A tool host whose geocoder could not reach its service. *)
Definition cut_off_host : list call -> string -> dict -> remote :=
  Scenario.answering [("city_to_coords", unreachable_text)].

(** A model that fails to answer. *)
Definition down : list Message -> pyres (option string) :=
  fun _ => Raise (Fault "ConnectionError" "Failed to connect to Ollama").

(** The line a user types to ask for the weather in Paris. *)
Definition paris_line : string := "What's the weather in Paris?" ++ PyStr.nl.

End Sample.

(** * Properties *)

(** ** The invocation channel *)

Lemma wait_for_exceeded (aw : remote) (bound : N) :
  exceeds aw bound -> wait_for aw bound = Raises TimeoutError.
Proof.
  intros [-> | (t & o & -> & Hlt)]; simpl; [reflexivity |].
  destruct (N.leb_spec t bound) as [Hle | _]; [lia | reflexivity].
Qed.

Lemma wait_for_in_time (t : N) (o : outcome) (bound : N) :
  (t <= bound)%N -> wait_for (After t o) bound = o.
Proof.
  intros Hle. simpl. destruct (N.leb_spec t bound); [reflexivity | lia].
Qed.

Lemma wait_for_exception_only (aw : remote) (bound : N) (e : exn) :
  exception_only aw -> wait_for aw bound = Raises e -> is_Exception e = true.
Proof.
  intros Hex. destruct aw as [t o |]; simpl.
  - destruct (t <=? bound)%N.
    + intros ->. exact (Hex t e eq_refl).
    + intros [= <-]. reflexivity.
  - intros [= <-]. reflexivity.
Qed.

(** C2.  Whatever the tool name and the arguments, and whatever the remote
    call does among returning, failing with an [Exception] and not
    answering, [call_tool] returns a string and raises nothing: the
    [timed out] text when the call exceeds the bound of 20, and the
    bracketed text carrying the fault's message when the call fails in
    time. *)
Theorem call_tool_never_raises
        (session : string -> dict -> remote) (name : string) (args : dict) :
  exception_only (session name args) ->
  (exists s, call_tool session name args = Ret s)
  /\ (exceeds (session name args) timeout_bound ->
      call_tool session name args = Ret ("[Error: '" ++ name ++ "' timed out]"))
  /\ (forall t cls msg,
         session name args = After t (Raises (Fault cls msg)) ->
         (t <= timeout_bound)%N ->
         call_tool session name args = Ret ("[Error: " ++ msg ++ "]")).
Proof.
  intros Hex. unfold call_tool. repeat split.
  - destruct (wait_for (session name args) timeout_bound) as [r | e] eqn:Hw.
    + destruct (content r); eauto.
    + pose proof (wait_for_exception_only _ _ _ Hex Hw) as He.
      destruct e; [eauto | rewrite He; eauto | discriminate He].
  - intros Hlate. rewrite (wait_for_exceeded _ _ Hlate). reflexivity.
  - intros t cls msg Hs Hle. rewrite Hs, (wait_for_in_time _ _ _ Hle).
    reflexivity.
Qed.

(** The statement above at a session whose calls fail with a protocol
    error. *)
Lemma call_tool_never_raises_witness :
  (exists s, call_tool (Scenario.broken []) "trivia" [] = Ret s)
  /\ (exceeds (Scenario.broken [] "trivia" []) timeout_bound ->
      call_tool (Scenario.broken []) "trivia" []
      = Ret ("[Error: '" ++ "trivia" ++ "' timed out]"))
  /\ (forall t cls msg,
         Scenario.broken [] "trivia" [] = After t (Raises (Fault cls msg)) ->
         (t <= timeout_bound)%N ->
         call_tool (Scenario.broken []) "trivia" []
         = Ret ("[Error: " ++ msg ++ "]")).
Proof.
  apply (call_tool_never_raises (Scenario.broken []) "trivia" []).
  intros t e [= _ <-]. reflexivity.
Defined.

(** ** The weather pipeline *)

Section Pipeline.

Variable session : list call -> string -> dict -> remote.
Variable json_loads : string -> option json.
Variable chat : list Message -> pyres (option string).

Lemma number_of_calls_app (name : string) (cs cs' : list call) :
  number_of_calls name (cs ++ cs')
  = number_of_calls name cs + number_of_calls name cs'.
Proof.
  unfold number_of_calls. rewrite filter_app, length_app. reflexivity.
Qed.

Lemma geocode_is_not_weather (city : string) (st : state) :
  number_of_calls "weather_summary"
    (calls (logged "city_to_coords" (geocode_args city) st))
  = number_of_calls "weather_summary" (calls st).
Proof.
  unfold logged; cbn [calls]. rewrite number_of_calls_app.
  cbv [number_of_calls geocode_args filter fst]. simpl. lia.
Qed.

(** Stage 2 is skipped when the decoded mapping has no truthy pair. *)
Lemma pipeline_without_pair (city raw : string) (d : dict) (st : state) :
  call_tool (session (calls st)) "city_to_coords" (geocode_args city) = Ret raw ->
  json_loads raw = Some (JDict d) ->
  truthy (Dict.get_or "latitude" JNull d)
  && truthy (Dict.get_or "longitude" JNull d) = false ->
  weather_pipeline session json_loads city st
  = (Ret (city_not_found city), logged "city_to_coords" (geocode_args city) st).
Proof.
  intros Hcall Hload Hpair.
  unfold weather_pipeline, bind, invoke, try_except, coordinates.
  fold (geocode_args city). rewrite Hcall, Hload, Hpair. reflexivity.
Qed.

(** The handler of the [try] block surfaces a text that does not decode
    to a mapping. *)
Lemma pipeline_unreadable (city raw : string) (st : state) :
  call_tool (session (calls st)) "city_to_coords" (geocode_args city) = Ret raw ->
  (forall d, json_loads raw <> Some (JDict d)) ->
  weather_pipeline session json_loads city st
  = (Ret raw, logged "city_to_coords" (geocode_args city) st).
Proof.
  intros Hcall Hload.
  unfold weather_pipeline, bind, invoke, try_except, coordinates.
  fold (geocode_args city). rewrite Hcall.
  destruct (json_loads raw) as [[| | | | | |d] |]; try reflexivity.
  destruct (Hload d eq_refl).
Qed.

Lemma zero_is_falsy (v : json) : is_zero v = true -> truthy v = false.
Proof.
  destruct v; simpl; try discriminate; intros ->; reflexivity.
Qed.

End Pipeline.

(** C1, as amended.  When the geocode result decodes to a mapping that
    yields no latitude/longitude pair, the pipeline produces
    [Could not find city '<city>'.]; when it does not decode to a mapping,
    the pipeline gives the result text back unchanged.  In either case the
    one call made is the geocode call: [weather_summary] is not invoked. *)
Theorem no_pair_no_weather_call
        (session : list call -> string -> dict -> remote)
        (json_loads : string -> option json)
        (city raw : string) (st : state) :
  call_tool (session (calls st)) "city_to_coords" [("city", JStr city)] = Ret raw ->
  (forall d, json_loads raw = Some (JDict d) ->
             truthy (Dict.get_or "latitude" JNull d)
             && truthy (Dict.get_or "longitude" JNull d) = false) ->
  let run := weather_pipeline session json_loads city st in
  fst run = Ret (match json_loads raw with
                 | Some (JDict _) => "Could not find city '" ++ city ++ "'."
                 | _ => raw
                 end)
  /\ calls (snd run) = (calls st ++ [("city_to_coords", [("city", JStr city)])])%list
  /\ number_of_calls "weather_summary" (calls (snd run))
     = number_of_calls "weather_summary" (calls st).
Proof.
  intros Hcall Hpair run. subst run.
  destruct (json_loads raw) as [v |] eqn:Hload.
  - destruct v as [| | | | | | d];
      try (rewrite (pipeline_unreadable session json_loads city raw st Hcall);
           [ repeat split; apply geocode_is_not_weather
           | intros d; rewrite Hload; discriminate ]).
    rewrite (pipeline_without_pair session json_loads city raw d st Hcall Hload
               (Hpair d eq_refl)).
    repeat split. apply geocode_is_not_weather.
  - rewrite (pipeline_unreadable session json_loads city raw st Hcall).
    + repeat split. apply geocode_is_not_weather.
    + intros d. rewrite Hload. discriminate.
Qed.

(** The statement above when the geocoder answers that the city is not
    found. *)
Lemma no_pair_no_weather_call_witness :
  let run :=
    weather_pipeline
      (Scenario.answering [("city_to_coords", Scenario.not_found_text)])
      Json.loads "Atlantis" initial in
  fst run = Ret "Could not find city 'Atlantis'."
  /\ calls (snd run) = [("city_to_coords", [("city", JStr "Atlantis")])]
  /\ number_of_calls "weather_summary" (calls (snd run)) = 0.
Proof.
  apply (no_pair_no_weather_call
           (Scenario.answering [("city_to_coords", Scenario.not_found_text)])
           Json.loads "Atlantis" Scenario.not_found_text initial).
  - reflexivity.
  - intros d Hd. vm_compute in Hd. injection Hd as <-. reflexivity.
Defined.

(** C1, as stated, fails: a geocode call that times out gives a text that
    does not decode, and the pipeline answers with that text, not with the
    [Could not find city] message. *)
Lemma unreadable_geocode_result_is_surfaced :
  call_tool (Scenario.silent []) "city_to_coords" [("city", JStr "Paris")]
  = Ret "[Error: 'city_to_coords' timed out]"
  /\ Json.loads "[Error: 'city_to_coords' timed out]" = None
  /\ fst (weather_pipeline Scenario.silent Json.loads "Paris" initial)
     = Ret "[Error: 'city_to_coords' timed out]"
  /\ "[Error: 'city_to_coords' timed out]" <> "Could not find city 'Paris'.".
Proof.
  repeat split; try reflexivity. discriminate.
Qed.

(** C9.  A geocode result that decodes to a mapping in which both
    coordinates are present and one of them is zero is treated as
    city-not-found: the message is [Could not find city '<city>'.] and
    [weather_summary] is not invoked. *)
Theorem zero_coordinate_is_city_not_found
        (session : list call -> string -> dict -> remote)
        (json_loads : string -> option json)
        (city raw : string) (d : dict) (lat lon : json) (st : state) :
  call_tool (session (calls st)) "city_to_coords" [("city", JStr city)] = Ret raw ->
  json_loads raw = Some (JDict d) ->
  Dict.get "latitude" d = Some lat ->
  Dict.get "longitude" d = Some lon ->
  is_zero lat || is_zero lon = true ->
  let run := weather_pipeline session json_loads city st in
  fst run = Ret ("Could not find city '" ++ city ++ "'.")
  /\ calls (snd run) = (calls st ++ [("city_to_coords", [("city", JStr city)])])%list
  /\ number_of_calls "weather_summary" (calls (snd run))
     = number_of_calls "weather_summary" (calls st).
Proof.
  intros Hcall Hload Hlat Hlon Hzero run. subst run.
  rewrite (pipeline_without_pair session json_loads city raw d st Hcall Hload).
  - repeat split. apply geocode_is_not_weather.
  - unfold Dict.get_or. rewrite Hlat, Hlon.
    apply orb_true_iff in Hzero as [Hz | Hz];
      rewrite (zero_is_falsy _ Hz); [reflexivity | apply andb_false_r].
Qed.

(** The statement above for a place on the equator. *)
Lemma zero_coordinate_is_city_not_found_witness :
  let run :=
    weather_pipeline
      (Scenario.answering [("city_to_coords", Scenario.equator_text)])
      Json.loads "Quito" initial in
  fst run = Ret "Could not find city 'Quito'."
  /\ calls (snd run) = [("city_to_coords", [("city", JStr "Quito")])]
  /\ number_of_calls "weather_summary" (calls (snd run)) = 0.
Proof.
  apply (zero_coordinate_is_city_not_found
           (Scenario.answering [("city_to_coords", Scenario.equator_text)])
           Json.loads "Quito" Scenario.equator_text
           [("city", JStr "Quito"); ("country", JStr "Ecuador");
            ("latitude", JFloat (S754_zero false));
            ("longitude", JFloat (S754_finite true 5523946417946624 (-46)))]
           (JFloat (S754_zero false))
           (JFloat (S754_finite true 5523946417946624 (-46)))
           initial); reflexivity.
Defined.

(** ** The conversation loop *)

Section Conversation.

Variable session : list call -> string -> dict -> remote.
Variable json_loads : string -> option json.
Variable chat : list Message -> pyres (option string).

(** The calls of a turn change neither the history nor the output. *)
Lemma invoke_frame (name : string) (args : dict) (st : state) :
  history (snd (invoke session name args st)) = history st
  /\ stdout (snd (invoke session name args st)) = stdout st.
Proof. split; reflexivity. Qed.

Lemma weather_pipeline_frame (city : string) (st : state) :
  history (snd (weather_pipeline session json_loads city st)) = history st
  /\ stdout (snd (weather_pipeline session json_loads city st)) = stdout st.
Proof.
  unfold weather_pipeline, bind, invoke, try_except, coordinates.
  destruct (call_tool _ _ _) as [raw | e]; [| split; reflexivity].
  destruct (json_loads raw) as [[| | | | | | d] |]; try (split; reflexivity).
  destruct (truthy _ && truthy _); [| split; reflexivity].
  unfold ret, raise. cbn [calls].
  destruct (call_tool _ _ _) as [w | e]; [split; reflexivity |].
  destruct (is_Exception e); split; reflexivity.
Qed.

Lemma tool_result_frame (user : string) (st : state) :
  history (snd (tool_result session json_loads user st)) = history st
  /\ stdout (snd (tool_result session json_loads user st)) = stdout st.
Proof.
  unfold tool_result.
  destruct (detect_tool user) as [[city | tname args] |].
  - unfold bind.
    pose proof (weather_pipeline_frame city st) as H.
    destruct (weather_pipeline session json_loads city st) as [[r | e] st'];
      exact H.
  - unfold bind, invoke.
    destruct (call_tool _ _ _); split; reflexivity.
  - split; reflexivity.
Qed.

(** What a turn leaves in the history, by how it ends. *)
Lemma turn_history (user : string) (st : state) :
  match turn session json_loads chat user st with
  | (Ret _, st') =>
      exists prompt answer,
        history st' = (history st ++ [user_message prompt;
                                      assistant_message answer])%list
        /\ stdout st'
           = (stdout st ++ [agent_line answer])%list
  | (Raise _, st') =>
      stdout st' = stdout st
      /\ (history st' = history st
          \/ exists prompt, history st' = (history st ++ [user_message prompt])%list)
  end.
Proof.
  unfold turn, bind.
  pose proof (tool_result_frame user st) as [Hh Ho].
  destruct (tool_result session json_loads user st) as [[result | e] st1]; cbn [snd] in Hh, Ho.
  - unfold append, get_history, write. cbn [history stdout calls].
    destruct (ask_llm chat _) as [answer | e].
    + exists (prompt_for user result), answer. cbn [history stdout].
      rewrite Hh, Ho, <- app_assoc. split; reflexivity.
    + cbn [history stdout]. rewrite Hh, Ho. split; [reflexivity |].
      right. exists (prompt_for user result). reflexivity.
  - split; [exact Ho | left; exact Hh].
Qed.


Lemma leaving_ends_loop (raw : string) :
  leaving (PyStr.strip raw) = ends_loop (Line raw).
Proof.
  unfold leaving, ends_loop. destruct (PyStr.strip raw); reflexivity.
Qed.

(** One pass through the loop body, by the read it meets. *)
Lemma loop_body_leaves (ev : read_event) (st : state) :
  ends_loop ev = true ->
  loop_body session json_loads chat ev st = (Farewell, left_at ev st).
Proof.
  intros Hends. unfold loop_body, left_at, print, write.
  destruct ev as [raw | |]; cbn [readline fst snd history stdout calls farewell].
  - rewrite leaving_ends_loop, Hends. cbn [snd history stdout calls].
    rewrite <- app_assoc. reflexivity.
  - cbn. rewrite <- app_assoc. reflexivity.
  - cbn. rewrite <- app_assoc. reflexivity.
Qed.

Lemma loop_body_stays (raw : string) (st : state) :
  ends_loop (Line raw) = false ->
  loop_body session json_loads chat (Line raw) st
  = match turn session json_loads chat (PyStr.strip raw) (prompted st) with
    | (Ret _, st') => (Continue, st')
    | (Raise e, st') => (Crashed e, st')
    end.
Proof.
  intros Hends. unfold loop_body, write. cbn [readline].
  rewrite leaving_ends_loop, Hends. reflexivity.
Qed.

Lemma ends_loop_false_line (ev : read_event) :
  ends_loop ev = false -> exists raw, ev = Line raw.
Proof. destruct ev; [eauto | discriminate | discriminate]. Qed.

(** A pass that lets the loop go on has added one user message and one
    assistant message, and written one reply. *)
Lemma loop_body_continue (ev : read_event) (st st' : state) :
  loop_body session json_loads chat ev st = (Continue, st') ->
  exists prompt answer,
    history st' = (history st ++ [user_message prompt;
                                  assistant_message answer])%list.
Proof.
  intros Hbody. destruct (ends_loop ev) eqn:Hends.
  - rewrite (loop_body_leaves ev st Hends) in Hbody. discriminate.
  - destruct (ends_loop_false_line ev Hends) as [raw ->].
    rewrite (loop_body_stays raw st Hends) in Hbody.
    pose proof (turn_history (PyStr.strip raw) (prompted st)) as Hturn.
    destruct (turn session json_loads chat (PyStr.strip raw) (prompted st))
      as [[u | e] st1]; [| discriminate].
    injection Hbody as <-.
    destruct Hturn as (prompt & answer & Hh & _). eauto.
Qed.

(** Whatever the pass does, it only adds to the end of the history. *)
Lemma loop_body_appends (ev : read_event) (st : state) :
  exists more,
    history (snd (loop_body session json_loads chat ev st))
    = (history st ++ more)%list.
Proof.
  destruct (ends_loop ev) eqn:Hends.
  - rewrite (loop_body_leaves ev st Hends). exists []. cbn.
    rewrite app_nil_r. reflexivity.
  - destruct (ends_loop_false_line ev Hends) as [raw ->].
    rewrite (loop_body_stays raw st Hends).
    pose proof (turn_history (PyStr.strip raw) (prompted st)) as Hturn.
    destruct (turn session json_loads chat (PyStr.strip raw) (prompted st))
      as [[u | e] st1]; cbn [snd].
    + destruct Hturn as (prompt & answer & Hh & _). eauto.
    + destruct Hturn as [_ [Hh | [prompt Hh]]]; [exists [] | eauto].
      rewrite app_nil_r. exact Hh.
Qed.

Lemma alternating_snoc (n : nat) :
  (alternating n ++ ["user"; "assistant"])%list = alternating (S n).
Proof.
  induction n as [| n IH]; [reflexivity |].
  cbn [alternating app]. rewrite IH. reflexivity.
Qed.

End Conversation.

(** The shape of the history at the top of the loop. *)
Lemma history_shape
      (session : list call -> string -> dict -> remote)
      (json_loads : string -> option json)
      (chat : list Message -> pyres (option string))
      (n : nat) (st : state) :
  after_turns session json_loads chat n st ->
  length (history st) = 1 + 2 * n
  /\ nth_error (history st) 0 = Some system_message
  /\ map role (history st) = "system" :: alternating n.
Proof.
  intros Hreach.
  induction Hreach as [| n st ev st' _ (Hlen & Hsys & Hroles) Hbody].
  - repeat split.
  - destruct (loop_body_continue _ _ _ _ _ _ Hbody)
      as (prompt & answer & ->).
    rewrite length_app, map_app, Hroles, Hlen. cbn [length map role].
    repeat split.
    + lia.
    + rewrite nth_error_app1; [exact Hsys | lia].
    + cbn [app]. rewrite alternating_snoc. reflexivity.
Qed.

(** A run of the loop from the top of the loop ends, and when it ends
    with the farewell it does so from a state at the top of the loop. *)
Lemma loop_ends_at_top
      (session : list call -> string -> dict -> remote)
      (json_loads : string -> option json)
      (chat : list Message -> pyres (option string))
      (stdin : list read_event) :
  forall (n : nat) (st st' : state),
    after_turns session json_loads chat n st ->
    loop session json_loads chat stdin st = (Farewell, st') ->
    exists m top ev,
      after_turns session json_loads chat (n + m) top
      /\ st' = left_at ev top.
Proof.
  induction stdin as [| ev rest IH]; intros n st st' Hreach Hrun.
  - cbn [loop] in Hrun.
    rewrite (loop_body_leaves session json_loads chat Eof st eq_refl) in Hrun.
    injection Hrun as <-. exists 0, st, Eof.
    rewrite Nat.add_0_r. split; [exact Hreach | reflexivity].
  - cbn [loop] in Hrun.
    destruct (loop_body session json_loads chat ev st) as [[| | e] st1] eqn:Hbody.
    + destruct (IH (S n) st1 st' (turn_done _ _ _ n st ev st1 Hreach Hbody) Hrun)
        as (m & top & ev' & Htop & ->).
      exists (S m), top, ev'. rewrite Nat.add_succ_r. split; [exact Htop | reflexivity].
    + injection Hrun as <-.
      destruct (ends_loop ev) eqn:Hends.
      * rewrite (loop_body_leaves session json_loads chat ev st Hends) in Hbody.
        injection Hbody as <-. exists 0, st, ev.
        rewrite Nat.add_0_r. split; [exact Hreach | reflexivity].
      * destruct (ends_loop_false_line ev Hends) as [raw ->].
        rewrite (loop_body_stays session json_loads chat raw st Hends) in Hbody.
        destruct (turn session json_loads chat (PyStr.strip raw) (prompted st))
          as [[u | e] st2]; discriminate.
    + discriminate.
Qed.

(** A conversation that ends with the farewell after [n] turns leaves
    [1 + 2 n] messages, the system message first. *)
Lemma agent_loop_history
      (session : list call -> string -> dict -> remote)
      (json_loads : string -> option json)
      (chat : list Message -> pyres (option string))
      (stdin : list read_event) (st : state) :
  agent_loop session json_loads chat stdin = (Farewell, st) ->
  exists n,
    length (history st) = 1 + 2 * n
    /\ nth_error (history st) 0 = Some system_message
    /\ map role (history st) = "system" :: alternating n.
Proof.
  intros Hrun.
  destruct (loop_ends_at_top session json_loads chat stdin 0 initial st
              (at_start _ _ _) Hrun) as (m & top & ev & Htop & ->).
  exists m. exact (history_shape _ _ _ _ _ Htop).
Qed.

(** C6.  After [n] completed turns the history holds exactly [1 + 2 n]
    messages: the system message installed at creation, unchanged at index
    0, then [n] user/assistant pairs in order; and whatever the next pass
    through the loop does, it only appends to that history. *)
Theorem history_after_turns
        (session : list call -> string -> dict -> remote)
        (json_loads : string -> option json)
        (chat : list Message -> pyres (option string))
        (n : nat) (st : state) :
  after_turns session json_loads chat n st ->
  length (history st) = 1 + 2 * n
  /\ nth_error (history st) 0 = Some system_message
  /\ map role (history st) = "system" :: alternating n
  /\ (forall ev, exists more,
         history (snd (loop_body session json_loads chat ev st))
         = (history st ++ more)%list).
Proof.
  intros Hreach.
  destruct (history_shape _ _ _ _ _ Hreach) as (Hlen & Hsys & Hroles).
  repeat split; try assumption.
  intros ev. apply loop_body_appends.
Qed.

(** The statement above after one turn of a conversation. *)
Lemma history_after_turns_witness :
  let st :=
    snd (loop_body Scenario.host Json.loads (Scenario.replying "Ha!")
                   (Line Scenario.joke_line) initial) in
  length (history st) = 1 + 2 * 1
  /\ nth_error (history st) 0 = Some system_message
  /\ map role (history st) = "system" :: alternating 1
  /\ (forall ev, exists more,
         history (snd (loop_body Scenario.host Json.loads
                                 (Scenario.replying "Ha!") ev st))
         = (history st ++ more)%list).
Proof.
  apply (history_after_turns Scenario.host Json.loads (Scenario.replying "Ha!")).
  apply (turn_done _ _ _ 0 initial (Line Scenario.joke_line)).
  - apply at_start.
  - vm_compute. reflexivity.
Defined.

(** C10.  When the text detects a single tool and that tool's invocation
    succeeds with the empty string, the turn builds no grounding prompt:
    the message appended to the history is the raw user text, and the
    model is asked over that history, as when no tool matches. *)
Theorem empty_tool_result_is_ungrounded
        (session : list call -> string -> dict -> remote)
        (json_loads : string -> option json)
        (chat : list Message -> pyres (option string))
        (user tname : string) (args : dict) (st : state) :
  detect_tool user = Some (Tool tname args) ->
  call_tool (session (calls st)) tname args = Ret EmptyString ->
  history (snd (turn session json_loads chat user st))
  = (history st
     ++ user_message user
     :: match ask_llm chat (history st ++ [user_message user]) with
        | Ret answer => [assistant_message answer]
        | Raise _ => []
        end)%list.
Proof.
  intros Hdetect Hcall.
  unfold turn, tool_result, bind, invoke. rewrite Hdetect, Hcall.
  unfold ret, append, get_history, write. cbn [history stdout calls prompt_for PyStr.nonempty].
  fold (user_message user).
  destruct (ask_llm chat _) as [answer | e]; cbn [snd history].
  - rewrite <- app_assoc. reflexivity.
  - reflexivity.
Qed.

(** The statement above when the joke tool answers with an empty text. *)
Lemma empty_tool_result_is_ungrounded_witness :
  history (snd (turn Scenario.mute_host Json.loads (Scenario.replying "Ha!")
                     "tell me a joke" initial))
  = [system_message; user_message "tell me a joke"; assistant_message "Ha!"].
Proof.
  apply (empty_tool_result_is_ungrounded
           Scenario.mute_host Json.loads (Scenario.replying "Ha!")
           "tell me a joke" "random_joke" [] initial); reflexivity.
Defined.

(** C8, as amended.  On ASCII input the loop says farewell and stops,
    reading nothing more, exactly when the line it read (trimmed, as the
    loop takes it) is empty or is [exit] or [quit] in any letter case, or
    the input ended or was interrupted.  On any other line it runs one
    turn: when that turn completes, the history has one more user and
    assistant pair and the loop goes on with the rest of the input; when
    that turn raises, the loop ends there with the exception, with no
    farewell, no reply printed and nothing more read. *)
Theorem loop_leaves_exactly_on_request
        (session : list call -> string -> dict -> remote)
        (json_loads : string -> option json)
        (chat : list Message -> pyres (option string))
        (ev : read_event) (rest : list read_event) (st : state) :
  ascii_event ev ->
  (fst (loop_body session json_loads chat ev st) = Farewell
   <-> ends_loop ev = true)
  /\ (ends_loop ev = true ->
      loop session json_loads chat (ev :: rest) st = (Farewell, left_at ev st))
  /\ loop session json_loads chat [] st = (Farewell, left_at Eof st)
  /\ (ends_loop ev = false ->
      exists raw,
        ev = Line raw
        /\ (forall st',
             turn session json_loads chat (PyStr.strip raw) (prompted st)
             = (Ret tt, st') ->
             loop_body session json_loads chat ev st = (Continue, st')
             /\ loop session json_loads chat (ev :: rest) st
                = loop session json_loads chat rest st'
             /\ exists prompt answer,
                 history st' = (history st ++ [user_message prompt;
                                               assistant_message answer])%list)
        /\ (forall e st',
             turn session json_loads chat (PyStr.strip raw) (prompted st)
             = (Raise e, st') ->
             loop_body session json_loads chat ev st = (Crashed e, st')
             /\ loop session json_loads chat (ev :: rest) st = (Crashed e, st')
             /\ stdout st' = (stdout st ++ ["You: "])%list)).
Proof.
  intros _. repeat split.
  - intros Hfare. destruct (ends_loop ev) eqn:Hends; [reflexivity |].
    destruct (ends_loop_false_line ev Hends) as [raw ->].
    rewrite (loop_body_stays session json_loads chat raw st Hends) in Hfare.
    destruct (turn session json_loads chat (PyStr.strip raw) (prompted st))
      as [[u | e] st1]; discriminate.
  - intros Hends. rewrite (loop_body_leaves _ _ _ _ _ Hends). reflexivity.
  - intros Hends. cbn [loop]. rewrite (loop_body_leaves _ _ _ _ _ Hends).
    reflexivity.
  - cbn [loop]. apply loop_body_leaves. reflexivity.
  - intros Hends. destruct (ends_loop_false_line ev Hends) as [raw ->].
    exists raw. split; [reflexivity |]. split.
    + intros st' Hturn.
      assert (Hbody : loop_body session json_loads chat (Line raw) st
                      = (Continue, st')).
      { rewrite (loop_body_stays session json_loads chat raw st Hends), Hturn.
        reflexivity. }
      repeat split.
      * exact Hbody.
      * cbn [loop]. rewrite Hbody. reflexivity.
      * exact (loop_body_continue _ _ _ _ _ _ Hbody).
    + intros e st' Hturn.
      assert (Hbody : loop_body session json_loads chat (Line raw) st
                      = (Crashed e, st')).
      { rewrite (loop_body_stays session json_loads chat raw st Hends), Hturn.
        reflexivity. }
      repeat split.
      * exact Hbody.
      * cbn [loop]. rewrite Hbody. reflexivity.
      * pose proof (turn_history session json_loads chat (PyStr.strip raw)
                                 (prompted st)) as Hshape.
        rewrite Hturn in Hshape. destruct Hshape as [Hout _].
        rewrite Hout. reflexivity.
Qed.

(** The statement above on a request for a joke followed by [EXIT]: the
    loop goes on from the state the one turn leaves. *)
Lemma loop_leaves_exactly_on_request_witness :
  loop Scenario.host Json.loads (Scenario.replying "Ha!")
       [Line Scenario.joke_line; Line "EXIT"; Line Scenario.joke_line] initial
  = loop Scenario.host Json.loads (Scenario.replying "Ha!")
         [Line "EXIT"; Line Scenario.joke_line]
         (snd (turn Scenario.host Json.loads (Scenario.replying "Ha!")
                    "tell me a joke" (prompted initial))).
Proof.
  destruct (loop_leaves_exactly_on_request
              Scenario.host Json.loads (Scenario.replying "Ha!")
              (Line Scenario.joke_line)
              [Line "EXIT"; Line Scenario.joke_line] initial eq_refl)
    as (_ & _ & _ & Hstay).
  destruct (Hstay eq_refl) as (raw & Hraw & Hturn & _).
  injection Hraw as <-.
  exact (proj1 (proj2 (Hturn _ eq_refl))).
Defined.

(** C8, as stated, fails: a line that asks for a joke does not end the
    loop, and yet the loop does not go on after it when the model cannot
    be reached: the run ends with the exception of the model call, the
    [exit] that follows is never read, and no farewell is printed. *)
Lemma unreachable_model_stops_the_loop :
  ends_loop (Line Scenario.joke_line) = false
  /\ loop Scenario.host Json.loads Sample.down
          [Line Scenario.joke_line; Line "exit"] initial
     = (Crashed (Fault "ConnectionError" "Failed to connect to Ollama"),
        {| history :=
             [system_message;
              user_message (grounding "tell me a joke" Scenario.joke_text)];
           stdout := ["You: "];
           calls := [("random_joke", [])] |}).
Proof.
  split; vm_compute; reflexivity.
Defined.

(** ** Intent detection *)

(** [detect_tool] walks the categories in the order of [priority]. *)
Lemma detect_tool_dispatch (user : string) :
  detect_tool user = first_match user.
Proof.
  unfold detect_tool, first_match, priority, fires, mentions.
  cbn [find keywords].
  change (PyStr.any_in ["weather"; "temperature"; "forecast"])
    with (PyStr.any_in weather_words).
  change (PyStr.any_in ["trivia"; "quiz"; "question"; "test me"; "challenge"])
    with (PyStr.any_in trivia_words).
  change (PyStr.any_in ["joke"; "funny"; "laugh"; "humor"; "humour"])
    with (PyStr.any_in joke_words).
  change (PyStr.any_in ["dog"; "puppy"; "doggo"; "pup"; "woof"])
    with (PyStr.any_in dog_words).
  change (PyStr.any_in
            ["book"; "read"; "novel"; "recommend"; "fiction"; "story"])
    with (PyStr.any_in book_words).
  destruct (PyStr.any_in weather_words (PyStr.lower user));
    destruct (weather_city user) as [city |] eqn:Hcity; cbn [andb call_of];
    try (rewrite Hcity; reflexivity);
    destruct (PyStr.any_in trivia_words (PyStr.lower user)); try reflexivity;
    destruct (PyStr.any_in joke_words (PyStr.lower user)); try reflexivity;
    destruct (PyStr.any_in dog_words (PyStr.lower user)); try reflexivity;
    destruct (PyStr.any_in book_words (PyStr.lower user)); reflexivity.
Qed.

(** C4, as amended.  [detect_tool] is the first-match dispatch over the
    categories in the order weather, trivia, joke, dog image, book
    recommendation, where weather is selected only when one of its
    keywords occurs and a city is captured as well: then weather wins
    whatever other keywords the text has; with a weather keyword and no
    city, the later categories are consulted in their order. *)
Theorem detect_tool_is_first_match (user : string) :
  detect_tool user = first_match user
  /\ (forall city,
         mentions Weather user = true ->
         weather_city user = Some city ->
         detect_tool user = Some (WeatherPipeline city))
  /\ (mentions Weather user = true ->
      weather_city user = None ->
      detect_tool user
      = match find (fires user) [Trivia; Joke; DogImage; BookRecommendation] with
        | Some c => call_of user c
        | None => None
        end).
Proof.
  split; [apply detect_tool_dispatch |].
  rewrite detect_tool_dispatch. unfold first_match, priority.
  split.
  - intros city Hweather Hcity. cbn [find]. unfold fires at 1.
    rewrite Hweather, Hcity. cbn [andb call_of]. rewrite Hcity. reflexivity.
  - intros Hweather Hcity. cbn [find]. unfold fires at 1.
    rewrite Hweather, Hcity. reflexivity.
Qed.

(** C4, as stated, fails: the text has a weather keyword, and a later
    category answers. *)
Lemma weather_keyword_is_passed_over :
  PyStr.any_in weather_words (PyStr.lower "Tell me a joke about the weather")
  = true
  /\ detect_tool "Tell me a joke about the weather"
     = Some (Tool "random_joke" []).
Proof. split; reflexivity. Qed.

(** C5, as amended.  A text with a keyword of trivia, joke, dog image or
    book recommendation always gets a tool call, and the book call takes
    the topic [fiction] when no topic is captured; a weather keyword has
    no such fallback: detection gives nothing exactly when none of those
    four categories is mentioned and weather is not mentioned with a
    captured city.  [detect_tool] is a total function: it raises on no
    text. *)
Theorem detection_falls_back (user : string) :
  (mentions Trivia user || mentions Joke user || mentions DogImage user
   || mentions BookRecommendation user = true ->
   exists d, detect_tool user = Some d)
  /\ (detect_tool user = None <->
      mentions Trivia user || mentions Joke user || mentions DogImage user
      || mentions BookRecommendation user = false
      /\ (mentions Weather user = false \/ weather_city user = None))
  /\ (topic_search user = None ->
      forall args,
        detect_tool user = Some (Tool "book_recs" args) ->
        args = [("topic", JStr "fiction"); ("limit", JInt 3)]).
Proof.
  rewrite detect_tool_dispatch.
  unfold first_match, priority, fires. cbn [find].
  destruct (mentions Weather user);
    destruct (weather_city user) as [c |] eqn:Hcity;
    destruct (mentions Trivia user); destruct (mentions Joke user);
    destruct (mentions DogImage user);
    destruct (mentions BookRecommendation user);
    cbn [andb orb call_of]; rewrite ?Hcity; cbn [option_map];
    (split; [intros H; try discriminate H; eauto |]);
    (split; [split; [intros H; try discriminate H; auto
                    | intros [H1 [H2 | H2]];
                      first [discriminate H1 | discriminate H2 | reflexivity]]
            |]);
    intros Htopic args Hargs; try discriminate Hargs;
    injection Hargs as <-; unfold book_topic; rewrite Htopic; reflexivity.
Qed.

(** C5, as stated, fails: the text has a weather keyword, no city is
    captured, and detection gives no tool call. *)
Lemma weather_keyword_without_city_gives_nothing :
  mentions Weather "How is the weather today" = true
  /\ detect_tool "How is the weather today" = None.
Proof. split; reflexivity. Qed.

(** *** The city after [weather in] *)

Section CitySearch.
Import PyStr Regex.







Lemma has_letter_nonempty (x : string) :
  has_letter x = true -> nonempty x = true.
Proof. destruct x; [discriminate | reflexivity]. Qed.















End CitySearch.




(** ** The tools of the server *)

(** A fault of the request made by [get_weather] leaves
    [weather_summary] as it is: nothing on the way catches it. *)
Lemma weather_summary_lets_fault_through
      (requests_get : string -> dict -> pyres Server.Response)
      (describe : string -> json -> string)
      (round1 : spec_float -> spec_float) (repr : json -> string)
      (latitude longitude : spec_float) (e : exn) :
  (forall params,
      requests_get "https://api.open-meteo.com/v1/forecast" params = Raise e) ->
  Server.weather_summary requests_get describe round1 repr latitude longitude
  = Raise e.
Proof.
  intros Hfail.
  unfold Server.weather_summary, Server.get_weather, Server.fetch, Server.pbind.
  rewrite Hfail. reflexivity.
Qed.

(** A failed status check does the same. *)
Lemma weather_summary_lets_status_through
      (requests_get : string -> dict -> pyres Server.Response)
      (describe : string -> json -> string)
      (round1 : spec_float -> spec_float) (repr : json -> string)
      (latitude longitude : spec_float) (e : exn) (body : pyres json) :
  (forall params,
      requests_get "https://api.open-meteo.com/v1/forecast" params
      = Ret {| Server.raise_for_status := Some e; Server.json_ := body |}) ->
  Server.weather_summary requests_get describe round1 repr latitude longitude
  = Raise e.
Proof.
  intros Hfail.
  unfold Server.weather_summary, Server.get_weather, Server.fetch, Server.pbind.
  rewrite Hfail. reflexivity.
Qed.

(** C3.  On a machine where every outbound request fails to connect,
    [city_to_coords], [book_recs] and [random_dog] degrade to their
    default results, and [get_weather], [weather_summary], [random_joke]
    and [trivia] raise the fault of the request: [weather_summary] gives
    neither its summary nor an error mapping. *)
Theorem request_fault_escapes_three_tools
        (describe : string -> json -> string)
        (html_unescape : json -> pyres json)
        (shuffle : list json -> list json)
        (equal : json -> json -> bool)
        (round1 : spec_float -> spec_float) (repr : json -> string)
        (latitude longitude : spec_float) :
  let fault := Fault "ConnectionError" "Network is unreachable" in
  Server.city_to_coords Scenario.offline describe "Paris"
  = Ret (JDict [("error", JStr "Network is unreachable")])
  /\ Server.book_recs Scenario.offline describe repr "fiction" 3
     = Ret (JStr "Error fetching books: Network is unreachable")
  /\ Server.random_dog Scenario.offline describe
     = Ret (JStr "https://via.placeholder.com/500?text=No+Dog+Image")
  /\ Server.get_weather Scenario.offline describe latitude longitude
     = Raise fault
  /\ Server.weather_summary Scenario.offline describe round1 repr
                            latitude longitude
     = Raise fault
  /\ Server.random_joke Scenario.offline describe = Raise fault
  /\ Server.trivia Scenario.offline describe html_unescape shuffle equal repr
     = Raise fault.
Proof. repeat split. Qed.

(** * Further properties *)

(** ** What detection hands on *)

Section Captures.
Import PyStr Regex.

Lemma lazy_group_letters (comma : bool) (s g : string) :
  lazy_group comma s = Some g -> letters_and_spaces g = true.
Proof.
  revert g. induction s as [| c s IH]; intros g; [discriminate |].
  cbn [lazy_group]. destruct (in_class c) eqn:Hc; [| discriminate].
  destruct (terminator comma s).
  - intros [= <-]. cbn [letters_and_spaces]. rewrite Hc. reflexivity.
  - destruct (lazy_group comma s) as [g' |]; [| discriminate].
    intros [= <-]. cbn [letters_and_spaces]. rewrite Hc, (IH g' eq_refl).
    reflexivity.
Qed.

Lemma spaces_then_from {A} (k : string -> option A) (s : string) (r : A) :
  spaces_then k s = Some r -> exists s', k s' = Some r.
Proof.
  induction s as [| c s IH]; [discriminate |].
  cbn [spaces_then]. destruct (is_space c); [| discriminate].
  destruct (spaces_then k s) as [r' |].
  - intros [= <-]. apply IH. reflexivity.
  - intros H. exists s. exact H.
Qed.

Lemma alternatives_from {A} (ws : list string) (k : string -> option A)
      (s : string) (r : A) :
  alternatives ws k s = Some r -> exists s', k s' = Some r.
Proof.
  induction ws as [| w ws IH]; [discriminate |].
  cbn [alternatives]. destruct (literal_ci w s) as [rest |]; [| exact IH].
  destruct (k rest) as [r' |] eqn:Hk; [| exact IH].
  intros [= <-]. exists rest. exact Hk.
Qed.

(** Whatever the search captures is a run of letters and spaces. *)
Lemma search_letters (ws : list string) (comma : bool) (s g : string) :
  search ws comma s = Some g -> letters_and_spaces g = true.
Proof.
  unfold search. generalize (@None ascii) as prev.
  induction s as [| c s IH]; intros prev; cbn [search_from];
    destruct (match_here ws comma prev _) as [g' |] eqn:Hm;
    try discriminate; try (apply IH).
  all: intros [= <-]; unfold match_here in Hm;
    destruct (boundary prev _); try discriminate;
    destruct (alternatives_from _ _ _ _ Hm) as [s1 H1];
    destruct (spaces_then_from _ _ _ H1) as [s2 H2];
    exact (lazy_group_letters _ _ _ H2).
Qed.

Lemma lstrip_letters (s : string) :
  letters_and_spaces s = true -> letters_and_spaces (lstrip s) = true.
Proof.
  induction s as [| c s IH]; [reflexivity |].
  intros H. cbn [lstrip]. destruct (is_space c); [| exact H].
  cbn [letters_and_spaces] in H. apply andb_true_iff in H as [_ H].
  apply IH, H.
Qed.

Lemma rstrip_letters (s : string) :
  letters_and_spaces s = true -> letters_and_spaces (rstrip s) = true.
Proof.
  induction s as [| c s IH]; [reflexivity |].
  cbn [letters_and_spaces]. intros H. apply andb_true_iff in H as [Hc H].
  specialize (IH H). cbn [rstrip]. destruct (rstrip s) as [| d r].
  - destruct (is_space c); [reflexivity |].
    cbn [letters_and_spaces]. rewrite Hc. reflexivity.
  - cbn [letters_and_spaces] in *. rewrite Hc. exact IH.
Qed.

Lemma strip_letters (s : string) :
  letters_and_spaces s = true -> letters_and_spaces (strip s) = true.
Proof. intros H. apply rstrip_letters, lstrip_letters, H. Qed.

(** The head of a text stripped on the left is no blank. *)
Lemma lstrip_head (s : string) :
  match lstrip s with
  | EmptyString => True
  | String c _ => is_space c = false
  end.
Proof.
  induction s as [| c s IH]; [exact I |].
  cbn [lstrip]. destruct (is_space c) eqn:Hc; [exact IH | exact Hc].
Qed.

Lemma rstrip_keeps_head (c : ascii) (s : string) :
  is_space c = false -> exists r, rstrip (String c s) = String c r.
Proof.
  intros Hc. cbn [rstrip]. destruct (rstrip s) as [| d r].
  - rewrite Hc. eauto.
  - eauto.
Qed.

Lemma rstrip_idempotent (s : string) : rstrip (rstrip s) = rstrip s.
Proof.
  induction s as [| c s IH]; [reflexivity |].
  cbn [rstrip]. destruct (rstrip s) as [| d r] eqn:Hr.
  - destruct (is_space c) eqn:Hc; [reflexivity |].
    cbn [rstrip]. rewrite Hc. reflexivity.
  - change (rstrip (String c (String d r)))
      with (match rstrip (String d r) with
            | EmptyString => if is_space c then EmptyString else String c EmptyString
            | r' => String c r'
            end).
    rewrite IH. reflexivity.
Qed.

(** [strip] leaves nothing to strip. *)
Lemma strip_idempotent (s : string) : strip (strip s) = strip s.
Proof.
  unfold strip. pose proof (lstrip_head s) as Hhead.
  destruct (lstrip s) as [| c t]; [reflexivity |].
  destruct (rstrip_keeps_head c t Hhead) as [r Hr].
  rewrite Hr. cbn [lstrip]. rewrite Hhead, <- Hr.
  apply rstrip_idempotent.
Qed.

End Captures.

(** X1.  The city [detect_tool] hands to the weather pipeline for an ASCII
    text is never empty, is made of letters and spaces only, and has no
    blank at either end. *)
Theorem detected_city_is_clean (user city : string) :
  is_ascii user = true ->
  detect_tool user = Some (WeatherPipeline city) ->
  PyStr.nonempty city = true
  /\ letters_and_spaces city = true
  /\ PyStr.strip city = city.
Proof.
  intros _. unfold detect_tool.
  destruct (PyStr.any_in weather_words (PyStr.lower user)).
  - unfold weather_city, city_search.
    destruct (Regex.search _ _ user) as [g |] eqn:Hsearch.
    + destruct (PyStr.nonempty (PyStr.strip g)) eqn:Hne.
      * intros [= <-]. repeat split.
        -- exact Hne.
        -- apply strip_letters, (search_letters _ _ _ _ Hsearch).
        -- apply strip_idempotent.
      * destruct (PyStr.any_in trivia_words _); [discriminate |].
        destruct (PyStr.any_in joke_words _); [discriminate |].
        destruct (PyStr.any_in dog_words _); [discriminate |].
        destruct (PyStr.any_in book_words _); discriminate.
    + destruct (PyStr.any_in trivia_words _); [discriminate |].
      destruct (PyStr.any_in joke_words _); [discriminate |].
      destruct (PyStr.any_in dog_words _); [discriminate |].
      destruct (PyStr.any_in book_words _); discriminate.
  - destruct (PyStr.any_in trivia_words _); [discriminate |].
    destruct (PyStr.any_in joke_words _); [discriminate |].
    destruct (PyStr.any_in dog_words _); [discriminate |].
    destruct (PyStr.any_in book_words _); discriminate.
Qed.

(** The statement above on a forecast request. *)
Lemma detected_city_is_clean_witness :
  PyStr.nonempty "Rome" = true
  /\ letters_and_spaces "Rome" = true
  /\ PyStr.strip "Rome" = "Rome".
Proof.
  apply (detected_city_is_clean "Any forecast for   Rome  ." "Rome");
    reflexivity.
Defined.

(** X2.  Every call [detect_tool] decides on for an ASCII text, other than
    the weather pipeline, names one of [trivia], [random_joke],
    [random_dog] without arguments, or [book_recs] with exactly a topic
    and the limit 3, where the topic is made of letters and spaces only
    and has no blank at either end. *)
Theorem detected_tool_arguments (user tname : string) (args : dict) :
  is_ascii user = true ->
  detect_tool user = Some (Tool tname args) ->
  (In tname ["trivia"; "random_joke"; "random_dog"] /\ args = [])
  \/ (tname = "book_recs"
      /\ exists topic,
          args = [("topic", JStr topic); ("limit", JInt 3)]
          /\ letters_and_spaces topic = true
          /\ PyStr.strip topic = topic).
Proof.
  intros _. unfold detect_tool.
  destruct (if PyStr.any_in weather_words (PyStr.lower user)
            then weather_city user else None); [discriminate |].
  destruct (PyStr.any_in trivia_words _);
    [intros [= <- <-]; left; cbn; auto |].
  destruct (PyStr.any_in joke_words _);
    [intros [= <- <-]; left; cbn; auto |].
  destruct (PyStr.any_in dog_words _);
    [intros [= <- <-]; left; cbn; auto |].
  destruct (PyStr.any_in book_words _); [| discriminate].
  intros [= <- <-]. right. split; [reflexivity |].
  exists (book_topic user). split; [reflexivity |].
  unfold book_topic, topic_search.
  destruct (Regex.search _ _ user) as [g |] eqn:Hsearch.
  - split; [apply strip_letters, (search_letters _ _ _ _ Hsearch)
           | apply strip_idempotent].
  - split; reflexivity.
Qed.

(** The statement above on a request for books. *)
Lemma detected_tool_arguments_witness :
  (In "book_recs" ["trivia"; "random_joke"; "random_dog"]
   /\ [("topic", JStr "space travel"); ("limit", JInt 3)] = [])
  \/ ("book_recs" = "book_recs"
      /\ exists topic,
          [("topic", JStr "space travel"); ("limit", JInt 3)]
          = [("topic", JStr topic); ("limit", JInt 3)]
          /\ letters_and_spaces topic = true
          /\ PyStr.strip topic = topic).
Proof.
  apply (detected_tool_arguments "a book about space travel, please");
    reflexivity.
Defined.

(** ** Detection and the case of letters *)

Section LetterCase.
Import PyStr Regex.

Lemma lower_char_space (c : ascii) : is_space (lower_char c) = is_space c.
Proof. destruct c as [[] [] [] [] [] [] [] []]; reflexivity. Qed.

Lemma lower_char_class (c : ascii) : in_class (lower_char c) = in_class c.
Proof. destruct c as [[] [] [] [] [] [] [] []]; reflexivity. Qed.

Lemma lower_char_word (c : ascii) : is_word (lower_char c) = is_word c.
Proof. destruct c as [[] [] [] [] [] [] [] []]; reflexivity. Qed.

Lemma lower_char_idempotent (c : ascii) :
  lower_char (lower_char c) = lower_char c.
Proof. destruct c as [[] [] [] [] [] [] [] []]; reflexivity. Qed.

(** The four characters the terminator looks for are no letters. *)
Lemma lower_char_mark (n : nat) (c : ascii) :
  In n [63; 46; 44; 10] ->
  Nat.eqb (code (lower_char c)) n = Nat.eqb (code c) n.
Proof.
  intros [<- | [<- | [<- | [<- | []]]]];
    destruct c as [[] [] [] [] [] [] [] []]; reflexivity.
Qed.

Lemma same_letters_cons (c d : ascii) (s t : string) :
  same_letters (String c s) (String d t) ->
  lower_char c = lower_char d /\ same_letters s t.
Proof. unfold same_letters. cbn [lower]. intros [= Hc Hs]. split; assumption. Qed.

Lemma same_letters_empty_l (t : string) :
  same_letters EmptyString t -> t = EmptyString.
Proof. destruct t; [reflexivity | discriminate]. Qed.

Lemma same_letters_empty_r (s : string) :
  same_letters s EmptyString -> s = EmptyString.
Proof. destruct s; [reflexivity | discriminate]. Qed.

Lemma by_lower {A} (p : ascii -> A) (c d : ascii) :
  (forall x, p (lower_char x) = p x) ->
  lower_char c = lower_char d -> p c = p d.
Proof. intros Hp Hcd. rewrite <- (Hp c), <- (Hp d), Hcd. reflexivity. Qed.

Lemma same_letters_nonempty (s t : string) :
  same_letters s t -> nonempty s = nonempty t.
Proof. destruct s, t; try discriminate; reflexivity. Qed.

Lemma literal_ci_case (w a b : string) :
  same_letters a b -> same_capture (literal_ci w a) (literal_ci w b).
Proof.
  revert a b. induction w as [| x w IH]; intros a b Hab.
  - destruct a, b; exact Hab.
  - destruct a as [| c a], b as [| d b]; try discriminate; [exact I |].
    apply same_letters_cons in Hab as [Hcd Hab].
    cbn [literal_ci]. rewrite Hcd.
    destruct (Ascii.eqb x (lower_char d)); [apply IH, Hab | exact I].
Qed.

Lemma terminator_case (comma : bool) (a b : string) :
  same_letters a b -> terminator comma a = terminator comma b.
Proof.
  intros Hab. destruct a as [| c a], b as [| d b]; try discriminate;
    [reflexivity |].
  apply same_letters_cons in Hab as [Hcd Hab].
  cbn [terminator].
  rewrite (by_lower (fun x => Nat.eqb (code x) 63) c d
             (fun x => lower_char_mark 63 x ltac:(cbn; auto)) Hcd).
  rewrite (by_lower (fun x => Nat.eqb (code x) 46) c d
             (fun x => lower_char_mark 46 x ltac:(cbn; auto)) Hcd).
  rewrite (by_lower (fun x => Nat.eqb (code x) 44) c d
             (fun x => lower_char_mark 44 x ltac:(cbn; auto)) Hcd).
  rewrite (by_lower (fun x => Nat.eqb (code x) 10) c d
             (fun x => lower_char_mark 10 x ltac:(cbn; auto)) Hcd).
  rewrite (same_letters_nonempty a b Hab). reflexivity.
Qed.

Lemma lazy_group_case (comma : bool) (a b : string) :
  same_letters a b ->
  same_capture (lazy_group comma a) (lazy_group comma b).
Proof.
  revert b. induction a as [| c a IH]; intros b Hab.
  - rewrite (same_letters_empty_l b Hab). exact I.
  - destruct b as [| d b]; [discriminate |].
    apply same_letters_cons in Hab as [Hcd Hab].
    cbn [lazy_group].
    rewrite (by_lower in_class c d lower_char_class Hcd).
    destruct (in_class d); [| exact I].
    rewrite (terminator_case comma a b Hab).
    destruct (terminator comma b).
    + unfold same_capture, same_letters. cbn [lower]. rewrite Hcd. reflexivity.
    + specialize (IH b Hab).
      destruct (lazy_group comma a), (lazy_group comma b);
        try contradiction; [| exact I].
      unfold same_capture, same_letters in *. cbn [option_map lower].
      rewrite Hcd, IH. reflexivity.
Qed.

Lemma spaces_then_case (k : string -> option string) :
  (forall a b, same_letters a b -> same_capture (k a) (k b)) ->
  forall a b, same_letters a b ->
              same_capture (spaces_then k a) (spaces_then k b).
Proof.
  intros Hk. induction a as [| c a IH]; intros b Hab.
  - rewrite (same_letters_empty_l b Hab). exact I.
  - destruct b as [| d b]; [discriminate |].
    apply same_letters_cons in Hab as [Hcd Hab].
    cbn [spaces_then].
    rewrite (by_lower is_space c d lower_char_space Hcd).
    destruct (is_space d); [| exact I].
    specialize (IH b Hab).
    destruct (spaces_then k a), (spaces_then k b); try contradiction;
      [exact IH | apply Hk, Hab].
Qed.

Lemma alternatives_case (ws : list string) (k : string -> option string) :
  (forall a b, same_letters a b -> same_capture (k a) (k b)) ->
  forall a b, same_letters a b ->
              same_capture (alternatives ws k a) (alternatives ws k b).
Proof.
  intros Hk a b Hab. induction ws as [| w ws IH]; [exact I |].
  cbn [alternatives]. pose proof (literal_ci_case w a b Hab) as Hlit.
  destruct (literal_ci w a) as [ra |], (literal_ci w b) as [rb |];
    try contradiction; [| exact IH].
  specialize (Hk ra rb Hlit).
  destruct (k ra), (k rb); try contradiction; [exact Hk | exact IH].
Qed.

Lemma boundary_case (p q : option ascii) (a b : string) :
  same_before p q -> same_letters a b -> boundary p a = boundary q b.
Proof.
  intros Hpq Hab. unfold boundary. f_equal.
  - destruct p as [c |], q as [d |]; try contradiction; [| reflexivity].
    exact (by_lower is_word c d lower_char_word Hpq).
  - destruct a as [| c a], b as [| d b]; try discriminate; [reflexivity |].
    apply same_letters_cons in Hab as [Hcd _].
    exact (by_lower is_word c d lower_char_word Hcd).
Qed.

Lemma search_from_case (ws : list string) (comma : bool) :
  forall (a b : string) (p q : option ascii),
    same_before p q -> same_letters a b ->
    same_capture (search_from ws comma p a) (search_from ws comma q b).
Proof.
  assert (Hhere : forall a b p q,
             same_before p q -> same_letters a b ->
             same_capture (match_here ws comma p a) (match_here ws comma q b)).
  { intros a b p q Hpq Hab. unfold match_here.
    rewrite (boundary_case p q a b Hpq Hab).
    destruct (boundary q b); [| exact I].
    apply alternatives_case; [| exact Hab].
    apply spaces_then_case. apply lazy_group_case. }
  induction a as [| c a IH]; intros b p q Hpq Hab.
  - rewrite (same_letters_empty_l b Hab). cbn [search_from].
    specialize (Hhere EmptyString EmptyString p q Hpq eq_refl).
    destruct (match_here ws comma p EmptyString),
             (match_here ws comma q EmptyString); try contradiction;
      [exact Hhere | exact I].
  - destruct b as [| d b]; [discriminate |].
    specialize (Hhere _ _ p q Hpq Hab).
    apply same_letters_cons in Hab as [Hcd Hab].
    cbn [search_from].
    destruct (match_here ws comma p (String c a)),
             (match_here ws comma q (String d b)); try contradiction;
      [exact Hhere |].
    apply IH; [exact Hcd | exact Hab].
Qed.

Lemma lower_lstrip (s : string) : lower (lstrip s) = lstrip (lower s).
Proof.
  induction s as [| c s IH]; [reflexivity |].
  cbn [lstrip lower]. rewrite lower_char_space.
  destruct (is_space c); [exact IH | reflexivity].
Qed.

Lemma lower_rstrip (s : string) : lower (rstrip s) = rstrip (lower s).
Proof.
  induction s as [| c s IH]; [reflexivity |].
  cbn [rstrip lower]. rewrite <- IH, lower_char_space.
  destruct (rstrip s); [destruct (is_space c) |]; reflexivity.
Qed.

Lemma strip_case (a b : string) :
  same_letters a b -> same_letters (strip a) (strip b).
Proof.
  unfold same_letters, strip. intros Hab.
  rewrite !lower_rstrip, !lower_lstrip, Hab. reflexivity.
Qed.

End LetterCase.

(** X3.  On ASCII text, detection does not depend on the case of letters:
    two ASCII texts that differ in letter case only are given the same
    tool, and the city or topic captured from one is the one captured
    from the other up to letter case. *)
Theorem detection_ignores_case (a b : string) :
  is_ascii a = true ->
  is_ascii b = true ->
  same_letters a b -> same_decision (detect_tool a) (detect_tool b).
Proof.
  intros _ _ Hab. unfold detect_tool. rewrite <- Hab.
  assert (Hcity : match weather_city a, weather_city b with
                  | Some c1, Some c2 => same_letters c1 c2
                  | None, None => True
                  | _, _ => False
                  end).
  { unfold weather_city, city_search, Regex.search.
    pose proof (search_from_case ["in"; "at"; "for"] false a b None None I Hab)
      as Hs.
    destruct (Regex.search_from _ _ None a) as [g |],
             (Regex.search_from _ _ None b) as [h |]; try contradiction;
      [| exact I].
    pose proof (strip_case g h Hs) as Hstrip.
    rewrite (same_letters_nonempty _ _ Hstrip).
    destruct (PyStr.nonempty (PyStr.strip h)); [exact Hstrip | exact I]. }
  assert (Htopic : same_letters (book_topic a) (book_topic b)).
  { unfold book_topic, topic_search, Regex.search.
    pose proof (search_from_case ["about"; "on"; "topic"; "genre"; "like"]
                  true a b None None I Hab) as Hs.
    destruct (Regex.search_from _ _ None a) as [g |],
             (Regex.search_from _ _ None b) as [h |]; try contradiction;
      [apply strip_case, Hs | reflexivity]. }
  assert (Hrest :
            same_decision
              (if PyStr.any_in trivia_words (PyStr.lower a)
               then Some (Tool "trivia" [])
               else if PyStr.any_in joke_words (PyStr.lower a)
               then Some (Tool "random_joke" [])
               else if PyStr.any_in dog_words (PyStr.lower a)
               then Some (Tool "random_dog" [])
               else if PyStr.any_in book_words (PyStr.lower a)
               then Some (Tool "book_recs"
                            [("topic", JStr (book_topic a)); ("limit", JInt 3)])
               else None)
              (if PyStr.any_in trivia_words (PyStr.lower a)
               then Some (Tool "trivia" [])
               else if PyStr.any_in joke_words (PyStr.lower a)
               then Some (Tool "random_joke" [])
               else if PyStr.any_in dog_words (PyStr.lower a)
               then Some (Tool "random_dog" [])
               else if PyStr.any_in book_words (PyStr.lower a)
               then Some (Tool "book_recs"
                            [("topic", JStr (book_topic b)); ("limit", JInt 3)])
               else None)).
  { destruct (PyStr.any_in trivia_words _); [split; constructor |].
    destruct (PyStr.any_in joke_words _); [split; constructor |].
    destruct (PyStr.any_in dog_words _); [split; constructor |].
    destruct (PyStr.any_in book_words _); [| exact I].
    split; [reflexivity |].
    repeat constructor. exact Htopic. }
  destruct (PyStr.any_in weather_words (PyStr.lower a)); [| exact Hrest].
  destruct (weather_city a), (weather_city b); try contradiction;
    [exact Hcity | exact Hrest].
Qed.

(** The statement above on a request typed in capitals. *)
Lemma detection_ignores_case_witness :
  same_decision (detect_tool "WEATHER IN PARIS?") (detect_tool "weather in Paris?").
Proof.
  apply (detection_ignores_case "WEATHER IN PARIS?" "weather in Paris?");
    reflexivity.
Defined.

(** ** The calls the orchestrator makes *)

Lemma call_tool_raises_only_cancelled
      (session : string -> dict -> remote) (name : string) (args : dict)
      (e : exn) :
  call_tool session name args = Raise e -> e = Cancelled.
Proof.
  unfold call_tool.
  destruct (wait_for (session name args) timeout_bound) as [r | e'].
  - destruct (content r); discriminate.
  - destruct e'; cbn; try discriminate. intros [= <-]. reflexivity.
Qed.

(** X4.  The weather pipeline writes nothing and leaves the history
    alone; it calls [city_to_coords] with the city and then, only with a
    truthy pair of coordinates, [weather_summary] with that pair; it makes
    no other call, and it raises nothing but a cancellation. *)
Theorem weather_pipeline_calls
        (session : list call -> string -> dict -> remote)
        (json_loads : string -> option json)
        (city : string) (st : state) :
  let run := weather_pipeline session json_loads city st in
  history (snd run) = history st
  /\ stdout (snd run) = stdout st
  /\ (calls (snd run) = (calls st ++ [("city_to_coords", geocode_args city)])%list
      \/ exists lat lon,
          truthy lat = true /\ truthy lon = true
          /\ calls (snd run)
             = (calls st ++ [("city_to_coords", geocode_args city);
                             ("weather_summary", weather_args lat lon)])%list)
  /\ (forall e, fst run = Raise e -> e = Cancelled).
Proof.
  unfold weather_pipeline, bind, invoke, try_except, coordinates.
  fold (geocode_args city).
  destruct (call_tool (session (calls st)) "city_to_coords" (geocode_args city))
    as [raw | e] eqn:Hgeo; cbn [fst snd history stdout calls].
  - destruct (json_loads raw) as [[| | | | | | d] |];
      cbn [is_Exception fst snd history stdout calls ret raise];
      try (repeat split; [left; reflexivity | discriminate]).
    destruct (truthy (Dict.get_or "latitude" JNull d)) eqn:Hlat;
      [| repeat split; [left; reflexivity | discriminate] ].
    destruct (truthy (Dict.get_or "longitude" JNull d)) eqn:Hlon;
      [| repeat split; [left; reflexivity | discriminate] ].
    cbn [andb calls].
    fold (weather_args (Dict.get_or "latitude" JNull d)
                       (Dict.get_or "longitude" JNull d)).
    destruct (call_tool _ "weather_summary" _) as [weather | e] eqn:Hw;
      cbn [fst snd history stdout calls ret].
    + repeat split; [| discriminate].
      right. exists (Dict.get_or "latitude" JNull d),
               (Dict.get_or "longitude" JNull d).
      rewrite <- app_assoc. repeat split; assumption.
    + rewrite (call_tool_raises_only_cancelled _ _ _ _ Hw).
      cbn [is_Exception fst snd history stdout calls].
      repeat split.
      * right. exists (Dict.get_or "latitude" JNull d),
                 (Dict.get_or "longitude" JNull d).
        rewrite <- app_assoc. repeat split; assumption.
      * intros e' [= <-]. reflexivity.
  - repeat split; [left; reflexivity |].
    intros e' [= <-]. exact (call_tool_raises_only_cancelled _ _ _ _ Hgeo).
Qed.

(** X5.  With a geocode result that decodes to a mapping holding a truthy
    latitude and a truthy longitude, the pipeline forwards exactly these
    two values to [weather_summary], and frames whatever text that call
    gives, a bracketed failure text included, as [Weather for <city>:]
    followed by the text on a new line. *)
Theorem weather_pipeline_forwards
        (session : list call -> string -> dict -> remote)
        (json_loads : string -> option json)
        (city raw weather : string) (d : dict) (lat lon : json) (st : state) :
  call_tool (session (calls st)) "city_to_coords" (geocode_args city) = Ret raw ->
  json_loads raw = Some (JDict d) ->
  Dict.get "latitude" d = Some lat ->
  Dict.get "longitude" d = Some lon ->
  truthy lat = true ->
  truthy lon = true ->
  call_tool (session (calls st ++ [("city_to_coords", geocode_args city)])%list)
            "weather_summary" (weather_args lat lon) = Ret weather ->
  let run := weather_pipeline session json_loads city st in
  fst run = Ret ("Weather for " ++ city ++ ":" ++ PyStr.nl ++ weather)
  /\ calls (snd run)
     = (calls st ++ [("city_to_coords", geocode_args city);
                     ("weather_summary", weather_args lat lon)])%list.
Proof.
  intros Hgeo Hload Hlat Hlon Htlat Htlon Hw.
  unfold weather_pipeline, bind, invoke, try_except, coordinates.
  fold (geocode_args city). rewrite Hgeo, Hload.
  unfold Dict.get_or. rewrite Hlat, Hlon, Htlat, Htlon.
  cbn [andb calls]. fold (weather_args lat lon). rewrite Hw.
  cbn [fst snd calls ret]. rewrite <- app_assoc. split; reflexivity.
Qed.

(** The statement above for Paris, with a host that knows its weather. *)
Lemma weather_pipeline_forwards_witness :
  let run := weather_pipeline Sample.host Json.loads "Paris" initial in
  fst run = Ret ("Weather for " ++ "Paris" ++ ":" ++ PyStr.nl ++ Sample.overcast_text)
  /\ calls (snd run)
     = (calls initial
        ++ [("city_to_coords", geocode_args "Paris");
            ("weather_summary",
             weather_args Sample.paris_latitude Sample.paris_longitude)])%list.
Proof.
  apply (weather_pipeline_forwards
           Sample.host Json.loads "Paris" Sample.paris_text Sample.overcast_text
           [("city", JStr "Paris"); ("latitude", Sample.paris_latitude);
            ("longitude", Sample.paris_longitude)]
           Sample.paris_latitude Sample.paris_longitude initial);
    reflexivity.
Defined.

Section Calls.

Variable session : list call -> string -> dict -> remote.
Variable json_loads : string -> option json.
Variable chat : list Message -> pyres (option string).

Lemma detect_tool_names (user tname : string) (args : dict) :
  detect_tool user = Some (Tool tname args) ->
  In tname ["trivia"; "random_joke"; "random_dog"; "book_recs"].
Proof.
  unfold detect_tool.
  destruct (if PyStr.any_in weather_words (PyStr.lower user)
            then weather_city user else None); [discriminate |].
  destruct (PyStr.any_in trivia_words _); [intros [= <- _]; cbn; auto |].
  destruct (PyStr.any_in joke_words _); [intros [= <- _]; cbn; auto |].
  destruct (PyStr.any_in dog_words _); [intros [= <- _]; cbn; auto |].
  destruct (PyStr.any_in book_words _); [| discriminate].
  intros [= <- _]. cbn. auto.
Qed.

(** The calls of [weather_pipeline], without the rest of what it does. *)
Lemma weather_pipeline_new_calls (city : string) (st : state) :
  exists new,
    calls (snd (weather_pipeline session json_loads city st))
    = (calls st ++ new)%list
    /\ (new = [("city_to_coords", geocode_args city)]
        \/ exists lat lon,
            new = [("city_to_coords", geocode_args city);
                   ("weather_summary", weather_args lat lon)]).
Proof.
  unfold weather_pipeline, bind, invoke, try_except, coordinates.
  fold (geocode_args city).
  destruct (call_tool (session (calls st)) "city_to_coords" (geocode_args city))
    as [raw | e]; cbn [snd calls]; [| eauto].
  destruct (json_loads raw) as [[| | | | | | d] |];
    cbn [is_Exception snd calls ret raise]; eauto.
  destruct (truthy _ && truthy _); cbn [snd calls ret]; [| eauto].
  fold (weather_args (Dict.get_or "latitude" JNull d)
                     (Dict.get_or "longitude" JNull d)).
  exists [("city_to_coords", geocode_args city);
          ("weather_summary",
           weather_args (Dict.get_or "latitude" JNull d)
                        (Dict.get_or "longitude" JNull d))].
  split; [| eauto].
  destruct (call_tool _ "weather_summary" _) as [w | e]; cbn [snd calls].
  - rewrite <- app_assoc. reflexivity.
  - destruct (is_Exception e); cbn [snd calls]; rewrite <- app_assoc;
      reflexivity.
Qed.

(** The calls of the tool stage of a turn, by what was detected. *)
Lemma tool_result_new_calls (user : string) (st : state) :
  exists new,
    calls (snd (tool_result session json_loads user st)) = (calls st ++ new)%list
    /\ match detect_tool user with
       | None => new = []
       | Some (Tool tname args) => new = [(tname, args)]
       | Some (WeatherPipeline city) =>
           new = [("city_to_coords", geocode_args city)]
           \/ exists lat lon,
               new = [("city_to_coords", geocode_args city);
                      ("weather_summary", weather_args lat lon)]
       end.
Proof.
  unfold tool_result.
  destruct (detect_tool user) as [[city | tname args] |].
  - destruct (weather_pipeline_new_calls city st) as (new & Hcalls & Hnew).
    exists new. split; [| exact Hnew].
    unfold bind.
    destruct (weather_pipeline session json_loads city st) as [[r | e] st1];
      exact Hcalls.
  - exists [(tname, args)]. split; [| reflexivity].
    unfold bind, invoke. destruct (call_tool _ _ _); reflexivity.
  - exists []. split; [cbn; rewrite app_nil_r |]; reflexivity.
Qed.

(** The rest of a turn calls nothing. *)
Lemma turn_calls_are_tool_calls (user : string) (st : state) :
  calls (snd (turn session json_loads chat user st))
  = calls (snd (tool_result session json_loads user st)).
Proof.
  unfold turn, bind.
  destruct (tool_result session json_loads user st) as [[result | e] st1];
    [| reflexivity].
  unfold append, get_history, write. cbn [history stdout calls].
  destruct (ask_llm chat _); reflexivity.
Qed.

Lemma loop_body_calls (ev : read_event) (st : state) :
  calls (snd (loop_body session json_loads chat ev st)) = calls st
  \/ exists raw,
      ev = Line raw
      /\ calls (snd (loop_body session json_loads chat ev st))
         = calls (snd (turn session json_loads chat (PyStr.strip raw)
                            (prompted st))).
Proof.
  destruct (ends_loop ev) eqn:Hends.
  - left. rewrite (loop_body_leaves session json_loads chat ev st Hends).
    reflexivity.
  - destruct (ends_loop_false_line ev Hends) as [raw ->].
    right. exists raw. split; [reflexivity |].
    rewrite (loop_body_stays session json_loads chat raw st Hends).
    destruct (turn session json_loads chat (PyStr.strip raw) (prompted st))
      as [[u | e] st1]; reflexivity.
Qed.

Lemma tool_result_registered (user : string) (st : state) :
  Forall registered (calls st) ->
  Forall registered (calls (snd (tool_result session json_loads user st))).
Proof.
  intros Hst.
  destruct (tool_result_new_calls user st) as (new & -> & Hnew).
  apply Forall_app. split; [exact Hst |].
  destruct (detect_tool user) as [[city | tname args] |] eqn:Hdetect.
  - destruct Hnew as [-> | (lat & lon & ->)];
      repeat (apply Forall_cons || apply Forall_nil);
      unfold registered, server_tools; cbn [fst In];
      repeat (first [left; reflexivity | right]).
  - subst new. apply Forall_cons; [| apply Forall_nil].
    pose proof (detect_tool_names user tname args Hdetect) as Hin.
    unfold registered, server_tools. cbn [fst In] in *.
    destruct Hin as [<- | [<- | [<- | [<- | []]]]];
      repeat (first [left; reflexivity | right]).
  - subst new. constructor.
Qed.

Lemma loop_registered (stdin : list read_event) :
  forall st,
    Forall registered (calls st) ->
    Forall registered (calls (snd (loop session json_loads chat stdin st))).
Proof.
  assert (Hbody : forall ev st,
             Forall registered (calls st) ->
             Forall registered
               (calls (snd (loop_body session json_loads chat ev st)))).
  { intros ev st Hst.
    destruct (loop_body_calls ev st) as [-> | (raw & _ & ->)]; [exact Hst |].
    rewrite turn_calls_are_tool_calls.
    apply tool_result_registered. exact Hst. }
  induction stdin as [| ev rest IH]; intros st Hst; cbn [loop].
  - apply Hbody, Hst.
  - specialize (Hbody ev st Hst).
    destruct (loop_body session json_loads chat ev st) as [[| | e] st1];
      cbn [snd] in Hbody; [apply IH, Hbody | exact Hbody | exact Hbody].
Qed.

End Calls.

(** X6.  Whatever the user types and whatever the tools and the model
    answer, every call the conversation loop makes on the session names a
    tool that the server registers. *)
Theorem every_call_names_a_server_tool
        (session : list call -> string -> dict -> remote)
        (json_loads : string -> option json)
        (chat : list Message -> pyres (option string))
        (stdin : list read_event) :
  Forall registered (calls (snd (agent_loop session json_loads chat stdin))).
Proof.
  unfold agent_loop. apply loop_registered. apply Forall_nil.
Qed.

(** X7.  A turn makes at most two calls on the session: none when no tool
    is detected, the one detected tool with its detected arguments
    otherwise, and for the weather pipeline the geocode call first. *)
Theorem turn_makes_at_most_two_calls
        (session : list call -> string -> dict -> remote)
        (json_loads : string -> option json)
        (chat : list Message -> pyres (option string))
        (user : string) (st : state) :
  exists new,
    calls (snd (turn session json_loads chat user st)) = (calls st ++ new)%list
    /\ length new <= 2
    /\ match detect_tool user with
       | None => new = []
       | Some (Tool tname args) => new = [(tname, args)]
       | Some (WeatherPipeline city) =>
           hd_error new = Some ("city_to_coords", [("city", JStr city)])
       end.
Proof.
  rewrite turn_calls_are_tool_calls.
  destruct (tool_result_new_calls session json_loads user st)
    as (new & Hcalls & Hnew).
  exists new. split; [exact Hcalls |].
  destruct (detect_tool user) as [[city | tname args] |].
  - destruct Hnew as [-> | (lat & lon & ->)]; split; cbn; auto.
  - subst new. split; cbn; auto.
  - subst new. split; cbn; auto.
Qed.

Section Turns.

Variable session : list call -> string -> dict -> remote.
Variable json_loads : string -> option json.
Variable chat : list Message -> pyres (option string).

Lemma prefix_app (w s : string) : String.prefix w (w ++ s) = true.
Proof.
  induction w as [| c w IH]; [destruct s; reflexivity |].
  cbn [String.append String.prefix].
  destruct (ascii_dec c c) as [_ | Hne]; [exact IH | destruct (Hne eq_refl)].
Qed.

Lemma contains_head (w s : string) : PyStr.contains w (w ++ s) = true.
Proof.
  pose proof (prefix_app w s) as H.
  destruct (w ++ s); cbn [PyStr.contains]; rewrite H; reflexivity.
Qed.

Lemma contains_skip (w a s : string) :
  PyStr.contains w s = true -> PyStr.contains w (a ++ s) = true.
Proof.
  intros H. induction a as [| c a IH]; [exact H |].
  cbn [String.append PyStr.contains]. rewrite IH. apply orb_true_r.
Qed.

Lemma grounding_contains (user r : string) :
  PyStr.contains user (grounding user r) = true
  /\ PyStr.contains r (grounding user r) = true.
Proof.
  unfold grounding. split;
    repeat (first [apply contains_head | apply contains_skip]).
Qed.

(** What a turn does once the tool stage has returned. *)
Lemma turn_after_tools (user : string) (st st1 : state)
      (result : option string) :
  tool_result session json_loads user st = (Ret result, st1) ->
  turn session json_loads chat user st
  = let asked := (history st ++ [user_message (prompt_for user result)])%list in
    match ask_llm chat asked with
    | Ret answer =>
        (Ret tt,
         {| history := (asked ++ [assistant_message answer])%list;
            stdout := (stdout st ++ [agent_line answer])%list;
            calls := calls st1 |})
    | Raise e =>
        (Raise e,
         {| history := asked; stdout := stdout st; calls := calls st1 |})
    end.
Proof.
  intros Htools.
  pose proof (tool_result_frame session json_loads user st) as [Hh Ho].
  unfold turn, bind. rewrite Htools in *. cbn [snd] in Hh, Ho.
  unfold append, get_history, write. cbn [history stdout calls].
  fold (user_message (prompt_for user result)). rewrite Hh, Ho.
  destruct (ask_llm chat _); reflexivity.
Qed.

Lemma ask_llm_stripped (messages : list Message) (answer : string) :
  ask_llm chat messages = Ret answer -> PyStr.strip answer = answer.
Proof.
  unfold ask_llm. destruct (chat messages) as [[c |] | e];
    try discriminate; intros [= <-]; apply strip_idempotent.
Qed.

End Turns.

(** X8.  When the tool stage of a turn gives a non-empty text, the user
    message the turn appends to the history is the grounding prompt, and
    it holds the user's text and the tool's text verbatim. *)
Theorem grounding_embeds_both_texts
        (session : list call -> string -> dict -> remote)
        (json_loads : string -> option json)
        (chat : list Message -> pyres (option string))
        (user r : string) (st st1 : state) :
  tool_result session json_loads user st = (Ret (Some r), st1) ->
  PyStr.nonempty r = true ->
  exists rest,
    history (snd (turn session json_loads chat user st))
    = (history st ++ user_message (grounding user r) :: rest)%list
    /\ PyStr.contains user (grounding user r) = true
    /\ PyStr.contains r (grounding user r) = true.
Proof.
  intros Htools Hne.
  rewrite (turn_after_tools session json_loads chat user st st1 _ Htools).
  cbn [prompt_for]. rewrite Hne. cbv zeta.
  destruct (ask_llm chat _) as [answer | e]; cbn [snd history].
  - exists [assistant_message answer]. rewrite <- app_assoc.
    split; [reflexivity | apply grounding_contains].
  - exists []. split; [reflexivity | apply grounding_contains].
Qed.

(** The statement above on a request for a joke. *)
Lemma grounding_embeds_both_texts_witness :
  exists rest,
    history (snd (turn Scenario.host Json.loads (Scenario.replying "Ha!")
                       "tell me a joke" initial))
    = (history initial
       ++ user_message (grounding "tell me a joke" Scenario.joke_text) :: rest)%list
    /\ PyStr.contains "tell me a joke"
         (grounding "tell me a joke" Scenario.joke_text) = true
    /\ PyStr.contains Scenario.joke_text
         (grounding "tell me a joke" Scenario.joke_text) = true.
Proof.
  apply (grounding_embeds_both_texts
           Scenario.host Json.loads (Scenario.replying "Ha!")
           "tell me a joke" Scenario.joke_text initial
           (snd (tool_result Scenario.host Json.loads "tell me a joke" initial)));
    reflexivity.
Defined.

(** X9.  A turn that completes records as the assistant's message the
    model's reply to the whole history ending with the new user message,
    trimmed of the blanks around it, and prints that same reply on its
    [Agent:] line. *)
Theorem reply_is_recorded_as_printed
        (session : list call -> string -> dict -> remote)
        (json_loads : string -> option json)
        (chat : list Message -> pyres (option string))
        (user : string) (st st' : state) :
  turn session json_loads chat user st = (Ret tt, st') ->
  exists prompt answer,
    ask_llm chat (history st ++ [user_message prompt])%list = Ret answer
    /\ PyStr.strip answer = answer
    /\ history st'
       = (history st ++ [user_message prompt; assistant_message answer])%list
    /\ stdout st' = (stdout st ++ [agent_line answer])%list.
Proof.
  intros Hturn.
  destruct (tool_result session json_loads user st) as [[result | e] st1]
    eqn:Htools.
  - rewrite (turn_after_tools session json_loads chat user st st1 _ Htools)
      in Hturn.
    cbv zeta in Hturn.
    destruct (ask_llm chat _) as [answer |] eqn:Hask; [| discriminate].
    injection Hturn as <-.
    exists (prompt_for user result), answer. cbn [history stdout].
    rewrite <- app_assoc.
    repeat split; [exact Hask | exact (ask_llm_stripped chat _ _ Hask)].
  - unfold turn, bind in Hturn. rewrite Htools in Hturn. discriminate.
Qed.

(** The statement above on a request for a joke, with a model whose reply
    has blanks around it. *)
Lemma reply_is_recorded_as_printed_witness :
  exists prompt answer,
    ask_llm (Scenario.replying "  Ha! ")
            (history initial ++ [user_message prompt])%list = Ret answer
    /\ PyStr.strip answer = answer
    /\ history (snd (turn Scenario.host Json.loads (Scenario.replying "  Ha! ")
                          "tell me a joke" initial))
       = (history initial ++ [user_message prompt; assistant_message answer])%list
    /\ stdout (snd (turn Scenario.host Json.loads (Scenario.replying "  Ha! ")
                         "tell me a joke" initial))
       = (stdout initial ++ [agent_line answer])%list.
Proof.
  apply (reply_is_recorded_as_printed
           Scenario.host Json.loads (Scenario.replying "  Ha! ")
           "tell me a joke" initial).
  reflexivity.
Defined.

(** ** Whole conversations *)

(** X10.  When the model call of a turn raises, the loop stops with that
    exception, reading nothing more and printing neither a reply nor a
    farewell; the history keeps the user message of the turn, with no
    assistant message after it. *)
Theorem model_failure_ends_the_loop
        (session : list call -> string -> dict -> remote)
        (json_loads : string -> option json)
        (chat : list Message -> pyres (option string))
        (raw : string) (rest : list read_event)
        (result : option string) (st st1 : state) (e : exn) :
  ends_loop (Line raw) = false ->
  tool_result session json_loads (PyStr.strip raw) (prompted st)
  = (Ret result, st1) ->
  chat (history st ++ [user_message (prompt_for (PyStr.strip raw) result)])%list
  = Raise e ->
  loop session json_loads chat (Line raw :: rest) st
  = (Crashed e,
     {| history :=
          (history st ++ [user_message (prompt_for (PyStr.strip raw) result)])%list;
        stdout := (stdout st ++ ["You: "])%list;
        calls := calls st1 |}).
Proof.
  intros Hends Htools Hchat. cbn [loop].
  rewrite (loop_body_stays session json_loads chat raw st Hends).
  rewrite (turn_after_tools session json_loads chat _ _ st1 _ Htools).
  cbn [prompted history stdout]. cbv zeta. unfold ask_llm. rewrite Hchat.
  reflexivity.
Qed.

(** The statement above on a request for a joke, with a model that is
    down. *)
Lemma model_failure_ends_the_loop_witness :
  loop Scenario.host Json.loads Sample.down
       [Line Scenario.joke_line; Line Scenario.joke_line] initial
  = (Crashed (Fault "ConnectionError" "Failed to connect to Ollama"),
     {| history :=
          (history initial
           ++ [user_message
                 (prompt_for (PyStr.strip Scenario.joke_line)
                             (Some Scenario.joke_text))])%list;
        stdout := (stdout initial ++ ["You: "])%list;
        calls := [("random_joke", [])] |}).
Proof.
  apply (model_failure_ends_the_loop
           Scenario.host Json.loads Sample.down Scenario.joke_line
           [Line Scenario.joke_line] (Some Scenario.joke_text) initial
           {| history := history initial;
              stdout := (stdout initial ++ ["You: "])%list;
              calls := [("random_joke", [])] |});
    reflexivity.
Defined.

Section Runs.

Variable session : list call -> string -> dict -> remote.
Variable json_loads : string -> option json.
Variable chat : list Message -> pyres (option string).

Lemma call_tool_total (s : string -> dict -> remote) (name : string)
      (args : dict) :
  exception_only (s name args) -> exists r, call_tool s name args = Ret r.
Proof.
  intros Hex.
  destruct (call_tool s name args) as [r | e] eqn:Hcall; [eauto |].
  pose proof (call_tool_raises_only_cancelled s name args e Hcall) as ->.
  unfold call_tool in Hcall.
  destruct (wait_for (s name args) timeout_bound) as [r | e] eqn:Hw.
  - destruct (content r); discriminate.
  - pose proof (wait_for_exception_only _ _ _ Hex Hw) as He.
    destruct e; cbn in Hcall; discriminate.
Qed.

Lemma weather_pipeline_returns (city : string) (st : state) :
  uninterrupted session ->
  exists r st', weather_pipeline session json_loads city st = (Ret r, st').
Proof.
  intros Hun.
  unfold weather_pipeline, bind, invoke, try_except, coordinates.
  destruct (call_tool_total (session (calls st)) "city_to_coords"
              [("city", JStr city)] (Hun _ _ _)) as [raw ->].
  unfold ret, raise.
  destruct (json_loads raw) as [[| | | | | | d] |];
    cbn [is_Exception]; eauto.
  destruct (truthy _ && truthy _); [| eauto].
  cbn [calls].
  match goal with
  | |- context [call_tool ?s ?n ?a] =>
      destruct (call_tool_total s n a (Hun _ _ _)) as [w ->]
  end.
  eauto.
Qed.

Lemma tool_result_returns (user : string) (st : state) :
  uninterrupted session ->
  exists r st', tool_result session json_loads user st = (Ret r, st').
Proof.
  intros Hun. unfold tool_result.
  destruct (detect_tool user) as [[city | tname args] |].
  - destruct (weather_pipeline_returns city st Hun) as (r & st' & Hrun).
    unfold bind. rewrite Hrun. unfold ret. eauto.
  - unfold bind, invoke.
    destruct (call_tool_total (session (calls st)) tname args (Hun _ _ _))
      as [r ->].
    unfold ret. eauto.
  - unfold ret. eauto.
Qed.

Lemma turn_completes (user : string) (st : state) :
  responsive chat -> uninterrupted session ->
  exists st', turn session json_loads chat user st = (Ret tt, st').
Proof.
  intros Hchat Hun.
  destruct (tool_result_returns user st Hun) as (r & st1 & Htools).
  rewrite (turn_after_tools session json_loads chat user st st1 r Htools).
  cbv zeta. unfold ask_llm.
  destruct (Hchat (history st ++ [user_message (prompt_for user r)])%list)
    as [c ->].
  destruct c; eauto.
Qed.

Lemma loop_body_ordinary (ev : read_event) (st : state) :
  responsive chat -> uninterrupted session -> ordinary ev ->
  exists st', loop_body session json_loads chat ev st = (Continue, st').
Proof.
  intros Hchat Hun Hord.
  destruct (ends_loop_false_line ev Hord) as [raw ->].
  rewrite (loop_body_stays session json_loads chat raw st Hord).
  destruct (turn_completes (PyStr.strip raw) (prompted st) Hchat Hun)
    as [st' ->].
  eauto.
Qed.

Lemma loop_through (lines : list read_event) (ev : read_event)
      (rest : list read_event) :
  responsive chat -> uninterrupted session ->
  Forall ordinary lines -> ends_loop ev = true ->
  forall n st,
    after_turns session json_loads chat n st ->
    exists top,
      loop session json_loads chat (lines ++ ev :: rest) st
      = (Farewell, left_at ev top)
      /\ after_turns session json_loads chat (n + length lines) top.
Proof.
  intros Hchat Hun Hlines Hends.
  induction Hlines as [| line lines Hline _ IH]; intros n st Hreach.
  - exists st. cbn [app loop length].
    rewrite (loop_body_leaves session json_loads chat ev st Hends).
    rewrite Nat.add_0_r. split; [reflexivity | exact Hreach].
  - destruct (loop_body_ordinary line st Hchat Hun Hline) as [st1 Hbody].
    destruct (IH (S n) st1 (turn_done _ _ _ n st line st1 Hreach Hbody))
      as (top & Hrun & Htop).
    exists top. cbn [app loop length]. rewrite Hbody, Hrun.
    rewrite Nat.add_succ_r. split; [reflexivity | exact Htop].
Qed.

(** Reading stops at the first read that makes the loop leave. *)
Lemma loop_stops_reading (before : list read_event) (ev : read_event)
      (rest : list read_event) :
  ends_loop ev = true ->
  forall st,
    loop session json_loads chat (before ++ ev :: rest) st
    = loop session json_loads chat (before ++ [ev]) st.
Proof.
  intros Hends. induction before as [| b before IH]; intros st;
    cbn [app loop].
  - rewrite (loop_body_leaves session json_loads chat ev st Hends).
    reflexivity.
  - destruct (loop_body session json_loads chat b st) as [[| | e] st1];
      [apply IH | reflexivity | reflexivity].
Qed.

Lemma loop_end_of_input (stdin : list read_event) :
  forall st,
    loop session json_loads chat stdin st
    = loop session json_loads chat (stdin ++ [Eof]) st.
Proof.
  induction stdin as [| b stdin IH]; intros st; cbn [app loop].
  - rewrite (loop_body_leaves session json_loads chat Eof st eq_refl).
    reflexivity.
  - destruct (loop_body session json_loads chat b st) as [[| | e] st1];
      [apply IH | reflexivity | reflexivity].
Qed.

Lemma replies_snoc (h : list Message) (prompt answer : string) :
  replies (h ++ [user_message prompt; assistant_message answer])
  = (replies h ++ [answer])%list.
Proof.
  unfold replies. rewrite filter_app, map_app. reflexivity.
Qed.

Lemma transcript_snoc (answers : list string) (answer : string) :
  transcript (answers ++ [answer])
  = (transcript answers ++ ["You: "; agent_line answer])%list.
Proof.
  unfold transcript. rewrite flat_map_app. cbn [flat_map].
  rewrite app_nil_r. reflexivity.
Qed.

(** At the top of the loop, the output is the transcript of the replies
    the history records. *)
Lemma stdout_at_top (n : nat) (st : state) :
  after_turns session json_loads chat n st ->
  stdout st = transcript (replies (history st))
  /\ length (replies (history st)) = n.
Proof.
  intros Hreach.
  induction Hreach as [| n st ev st' _ [Hout Hlen] Hbody]; [split; reflexivity |].
  destruct (ends_loop ev) eqn:Hends.
  - rewrite (loop_body_leaves session json_loads chat ev st Hends) in Hbody.
    discriminate.
  - destruct (ends_loop_false_line ev Hends) as [raw ->].
    rewrite (loop_body_stays session json_loads chat raw st Hends) in Hbody.
    pose proof (turn_history session json_loads chat (PyStr.strip raw)
                  (prompted st)) as Hturn.
    destruct (turn session json_loads chat (PyStr.strip raw) (prompted st))
      as [[u | e] st1]; [| discriminate].
    injection Hbody as <-.
    destruct Hturn as (prompt & answer & Hh & Ho).
    cbn [prompted history stdout] in Hh, Ho.
    rewrite Hh, Ho, replies_snoc, transcript_snoc, <- Hout, <- app_assoc.
    rewrite length_app, Hlen. cbn [length]. split; [reflexivity | lia].
Qed.

End Runs.

(** X11.  When the model answers every request and no call is cancelled,
    a conversation of [k] ordinary lines followed by a read that makes the
    loop leave ends with the farewell after exactly [k] turns: the history
    then holds [1 + 2 k] messages, whatever the tools answered. *)
Theorem conversation_runs_to_the_farewell
        (session : list call -> string -> dict -> remote)
        (json_loads : string -> option json)
        (chat : list Message -> pyres (option string))
        (lines : list read_event) (ev : read_event) (rest : list read_event) :
  responsive chat ->
  uninterrupted session ->
  Forall ordinary lines ->
  ends_loop ev = true ->
  exists top,
    agent_loop session json_loads chat (lines ++ ev :: rest)
    = (Farewell, left_at ev top)
    /\ after_turns session json_loads chat (length lines) top
    /\ length (history (left_at ev top)) = 1 + 2 * length lines.
Proof.
  intros Hchat Hun Hlines Hends.
  destruct (loop_through session json_loads chat lines ev rest
              Hchat Hun Hlines Hends 0 initial (at_start _ _ _))
    as (top & Hrun & Htop).
  exists top. cbn [Nat.add] in Htop. repeat split; try assumption.
  exact (proj1 (history_shape _ _ _ _ _ Htop)).
Qed.

(** The statement above on two requests followed by [quit]. *)
Lemma conversation_runs_to_the_farewell_witness :
  exists top,
    agent_loop Sample.host Json.loads (Scenario.replying "Sure.")
               ([Line Sample.paris_line; Line Scenario.joke_line]
                ++ Line "quit" :: [Line Scenario.joke_line])
    = (Farewell, left_at (Line "quit") top)
    /\ after_turns Sample.host Json.loads (Scenario.replying "Sure.")
                   (length [Line Sample.paris_line; Line Scenario.joke_line]) top
    /\ length (history (left_at (Line "quit") top))
       = 1 + 2 * length [Line Sample.paris_line; Line Scenario.joke_line].
Proof.
  apply (conversation_runs_to_the_farewell
           Sample.host Json.loads (Scenario.replying "Sure.")).
  - intros messages. exists (Some "Sure."). reflexivity.
  - intros cs name args t e. unfold Sample.host, Scenario.answering.
    destruct (find _ _); discriminate.
  - repeat constructor.
  - reflexivity.
Defined.

(** X12.  The loop reads nothing after the read that makes it leave: the
    events that follow change nothing; and the end of the input is such a
    read, so that an input cut short is an input ended. *)
Theorem nothing_is_read_after_leaving
        (session : list call -> string -> dict -> remote)
        (json_loads : string -> option json)
        (chat : list Message -> pyres (option string))
        (before : list read_event) (st : state) :
  (forall ev rest,
      ends_loop ev = true ->
      loop session json_loads chat (before ++ ev :: rest) st
      = loop session json_loads chat (before ++ [ev]) st)
  /\ loop session json_loads chat before st
     = loop session json_loads chat (before ++ [Eof]) st.
Proof.
  split.
  - intros ev rest Hends. apply loop_stops_reading, Hends.
  - apply loop_end_of_input.
Qed.

(** X13.  The output of a conversation that ends with the farewell is,
    for each reply the history records and in the same order, a prompt
    and the reply on its [Agent:] line, then a last prompt and the
    farewell. *)
Theorem output_is_the_transcript
        (session : list call -> string -> dict -> remote)
        (json_loads : string -> option json)
        (chat : list Message -> pyres (option string))
        (stdin : list read_event) (st : state) :
  agent_loop session json_loads chat stdin = (Farewell, st) ->
  exists ev,
    stdout st
    = (transcript (replies (history st)) ++ ["You: "; farewell ev])%list.
Proof.
  intros Hrun.
  destruct (loop_ends_at_top session json_loads chat stdin 0 initial st
              (at_start _ _ _) Hrun) as (m & top & ev & Htop & ->).
  exists ev. cbn [left_at history stdout].
  rewrite (proj1 (stdout_at_top session json_loads chat _ _ Htop)).
  reflexivity.
Qed.

(** The statement above on a request for a joke followed by the end of
    the input. *)
Lemma output_is_the_transcript_witness :
  exists ev,
    stdout (snd (agent_loop Scenario.host Json.loads (Scenario.replying "Ha!")
                            [Line Scenario.joke_line]))
    = (transcript
         (replies
            (history (snd (agent_loop Scenario.host Json.loads
                                      (Scenario.replying "Ha!")
                                      [Line Scenario.joke_line]))))
       ++ ["You: "; farewell ev])%list.
Proof.
  apply (output_is_the_transcript
           Scenario.host Json.loads (Scenario.replying "Ha!")
           [Line Scenario.joke_line]).
  reflexivity.
Defined.

(** ** What the tools of the server return *)

Section ToolResults.

Variable requests_get : string -> dict -> pyres Server.Response.
Variable describe : string -> json -> string.

Lemma catch_returns {A} (body : pyres A) (handler : exn -> pyres A)
      (P : A -> Prop) :
  (forall a, body = Ret a -> P a) ->
  (forall e a, handler e = Ret a -> P a) ->
  (forall e, exists a, handler e = Ret a) ->
  match Server.catch body handler with
  | Ret a => P a
  | Raise e => e = Cancelled
  end.
Proof.
  intros Hbody Hhandler Htotal. unfold Server.catch.
  destruct body as [a | e]; [apply Hbody; reflexivity |].
  destruct e; cbn [is_Exception]; try reflexivity;
    match goal with
    | |- context [handler ?x] =>
        destruct (Htotal x) as [a Ha]; rewrite Ha; exact (Hhandler _ _ Ha)
    end.
Qed.

End ToolResults.

(** X14.  Whatever the geocoding request does, [city_to_coords] returns
    either a mapping with the sole key [error] or a mapping with exactly
    the keys [city], [country], [latitude], [longitude], [timezone]; it
    raises nothing but a cancellation. *)
Theorem city_to_coords_shape
        (requests_get : string -> dict -> pyres Server.Response)
        (describe : string -> json -> string) (city : string) :
  match Server.city_to_coords requests_get describe city with
  | Ret v => error_mapping v \/ place_mapping v
  | Raise e => e = Cancelled
  end.
Proof.
  unfold Server.city_to_coords.
  apply catch_returns.
  - intros v H.
    bind_step H. bind_step H.
    match type of H with (if ?c then _ else _) = _ => destruct c end.
    + injection H as <-. left. eexists. reflexivity.
    + do 6 (bind_step H). injection H as <-.
      right. unfold place_mapping. eauto 10.
  - intros e v [= <-]. left. eexists. reflexivity.
  - intros e. eauto.
Qed.

(** X15.  When the geocoding service answers with an object whose
    [results] are missing or falsy (an empty list, [null]),
    [city_to_coords] returns the mapping [{"error": "City '<city>' not
    found"}]. *)
Theorem city_to_coords_not_found
        (requests_get : string -> dict -> pyres Server.Response)
        (describe : string -> json -> string) (city : string) (body : dict) :
  (forall params,
      requests_get geocoding_url params = Ret (answered (JDict body))) ->
  truthy (Dict.get_or "results" (JList []) body) = false ->
  Server.city_to_coords requests_get describe city
  = Ret (JDict [("error", JStr ("City '" ++ city ++ "' not found"))]).
Proof.
  intros Hget Hnone.
  unfold Server.city_to_coords, Server.fetch, Server.pbind, Server.attr_get.
  fold geocoding_url. rewrite Hget. cbn [answered Server.raise_for_status
                                            Server.json_].
  rewrite Hnone. reflexivity.
Qed.

(** The statement above for a service that answers with an empty object. *)
Lemma city_to_coords_not_found_witness :
  Server.city_to_coords (fun _ _ => Ret (answered (JDict []))) (fun cls _ => cls)
                        "Atlantis"
  = Ret (JDict [("error", JStr ("City '" ++ "Atlantis" ++ "' not found"))]).
Proof.
  apply (city_to_coords_not_found
           (fun _ _ => Ret (answered (JDict []))) (fun cls _ => cls)
           "Atlantis" []);
    reflexivity.
Defined.

(** X16.  When the geocoding service answers with a list of results whose
    first element is an object with a name, a latitude and a longitude,
    [city_to_coords] returns these three values of the first result
    unchanged, with its country and timezone, [None] where the result has
    none; the other results play no part. *)
Theorem city_to_coords_first_result
        (requests_get : string -> dict -> pyres Server.Response)
        (describe : string -> json -> string) (city : string)
        (body loc : dict) (others : list json) (name latitude longitude : json) :
  (forall params,
      requests_get geocoding_url params = Ret (answered (JDict body))) ->
  Dict.get "results" body = Some (JList (JDict loc :: others)) ->
  Dict.get "name" loc = Some name ->
  Dict.get "latitude" loc = Some latitude ->
  Dict.get "longitude" loc = Some longitude ->
  Server.city_to_coords requests_get describe city
  = Ret (JDict [("city", name);
                ("country", Dict.get_or "country" JNull loc);
                ("latitude", latitude); ("longitude", longitude);
                ("timezone", Dict.get_or "timezone" JNull loc)]).
Proof.
  intros Hget Hresults Hname Hlat Hlon.
  unfold Server.city_to_coords, Server.fetch, Server.pbind, Server.attr_get.
  fold geocoding_url. rewrite Hget. cbn [answered Server.raise_for_status
                                            Server.json_].
  unfold Dict.get_or. rewrite Hresults.
  cbn [truthy negb Server.first Server.item].
  rewrite Hname, Hlat, Hlon. reflexivity.
Qed.

(** The statement above for a service that knows two places called
    Paris. *)
Lemma city_to_coords_first_result_witness :
  Server.city_to_coords
    (fun _ _ =>
       Ret (answered
              (JDict [("results",
                       JList [JDict [("name", JStr "Paris");
                                     ("latitude", Sample.paris_latitude);
                                     ("longitude", Sample.paris_longitude);
                                     ("country", JStr "France")];
                              JDict [("name", JStr "Paris");
                                     ("country", JStr "United States")]])])))
    (fun cls _ => cls) "Paris"
  = Ret (JDict [("city", JStr "Paris");
                ("country",
                 Dict.get_or "country" JNull
                   [("name", JStr "Paris");
                    ("latitude", Sample.paris_latitude);
                    ("longitude", Sample.paris_longitude);
                    ("country", JStr "France")]);
                ("latitude", Sample.paris_latitude);
                ("longitude", Sample.paris_longitude);
                ("timezone",
                 Dict.get_or "timezone" JNull
                   [("name", JStr "Paris");
                    ("latitude", Sample.paris_latitude);
                    ("longitude", Sample.paris_longitude);
                    ("country", JStr "France")])]).
Proof.
  apply (city_to_coords_first_result
           _ (fun cls _ => cls) "Paris"
           [("results",
             JList [JDict [("name", JStr "Paris");
                           ("latitude", Sample.paris_latitude);
                           ("longitude", Sample.paris_longitude);
                           ("country", JStr "France")];
                    JDict [("name", JStr "Paris");
                           ("country", JStr "United States")]])]
           [("name", JStr "Paris");
            ("latitude", Sample.paris_latitude);
            ("longitude", Sample.paris_longitude);
            ("country", JStr "France")]
           [JDict [("name", JStr "Paris"); ("country", JStr "United States")]]);
    reflexivity.
Defined.

(** X17.  A failure of the geocoding request reaches the user as a city
    that could not be found: [city_to_coords] turns the fault into the
    mapping [{"error": <message>}], and when the session delivers a text
    that decodes to this mapping the pipeline answers [Could not find
    city '<city>'.] and does not call [weather_summary]. *)
Theorem geocoding_fault_reads_as_city_not_found
        (requests_get : string -> dict -> pyres Server.Response)
        (describe : string -> json -> string)
        (session : list call -> string -> dict -> remote)
        (json_loads : string -> option json)
        (city raw cls msg : string) (st : state) :
  (forall params, requests_get geocoding_url params = Raise (Fault cls msg)) ->
  call_tool (session (calls st)) "city_to_coords" (geocode_args city) = Ret raw ->
  json_loads raw = Some (JDict [("error", JStr msg)]) ->
  Server.city_to_coords requests_get describe city
  = Ret (JDict [("error", JStr msg)])
  /\ weather_pipeline session json_loads city st
     = (Ret (city_not_found city),
        logged "city_to_coords" (geocode_args city) st).
Proof.
  intros Hget Hcall Hload. split.
  - unfold Server.city_to_coords, Server.fetch, Server.pbind.
    fold geocoding_url. rewrite Hget. reflexivity.
  - apply (pipeline_without_pair session json_loads city raw
             [("error", JStr msg)] st Hcall Hload).
    reflexivity.
Qed.

(** The statement above on a machine without network. *)
Lemma geocoding_fault_reads_as_city_not_found_witness :
  Server.city_to_coords Scenario.offline (fun cls _ => cls) "Paris"
  = Ret (JDict [("error", JStr "Network is unreachable")])
  /\ weather_pipeline Sample.cut_off_host Json.loads "Paris" initial
     = (Ret (city_not_found "Paris"),
        logged "city_to_coords" (geocode_args "Paris") initial).
Proof.
  apply (geocoding_fault_reads_as_city_not_found
           Scenario.offline (fun cls _ => cls) Sample.cut_off_host Json.loads
           "Paris" Sample.unreachable_text "ConnectionError"
           "Network is unreachable" initial);
    reflexivity.
Defined.

(** ** The weather summary *)

Section Summary.

Variable requests_get : string -> dict -> pyres Server.Response.
Variable describe : string -> json -> string.
Variable round1 : spec_float -> spec_float.
Variable repr : json -> string.

(** What [get_weather] gives for an answered request. *)
Lemma get_weather_answered (latitude longitude : spec_float) (body : dict) :
  (forall params,
      requests_get forecast_url params = Ret (answered (JDict body))) ->
  Server.get_weather requests_get describe latitude longitude
  = Ret (Dict.get_or "current" (JDict []) body).
Proof.
  intros Hget. unfold Server.get_weather, Server.fetch, Server.pbind.
  fold forecast_url. rewrite Hget. reflexivity.
Qed.

End Summary.

(** X18.  When the forecast service answers with an object that has no
    [current] entry, or whose [current] entry is an object without a
    temperature (missing or [null]), [weather_summary] returns the mapping
    [{"error": "Could not retrieve weather"}], whatever else the answer
    holds. *)
Theorem weather_summary_without_temperature
        (requests_get : string -> dict -> pyres Server.Response)
        (describe : string -> json -> string)
        (round1 : spec_float -> spec_float) (repr : json -> string)
        (latitude longitude : spec_float) (body : dict) :
  (forall params,
      requests_get forecast_url params = Ret (answered (JDict body))) ->
  (forall current,
      Dict.get "current" body = Some current ->
      exists d, current = JDict d
                /\ Dict.get_or "temperature_2m" JNull d = JNull) ->
  Server.weather_summary requests_get describe round1 repr latitude longitude
  = Ret (JDict [("error", JStr "Could not retrieve weather")]).
Proof.
  intros Hget Hcurrent. unfold Server.weather_summary.
  rewrite (get_weather_answered requests_get describe latitude longitude body Hget).
  unfold Dict.get_or at 1.
  destruct (Dict.get "current" body) as [current |].
  - destruct (Hcurrent current eq_refl) as (d & -> & Htemp).
    cbn [Server.pbind Server.attr_get]. rewrite Htemp. reflexivity.
  - reflexivity.
Qed.

(** The statement above for a forecast that holds a wind speed only. *)
Lemma weather_summary_without_temperature_witness :
  Server.weather_summary
    (fun _ _ => Ret (answered (JDict [("current",
                                        JDict [("wind_speed_10m", JInt 12)])])))
    (fun cls _ => cls) (fun f => f) (fun _ => EmptyString)
    (S754_zero false) (S754_zero false)
  = Ret (JDict [("error", JStr "Could not retrieve weather")]).
Proof.
  apply (weather_summary_without_temperature
           _ (fun cls _ => cls) (fun f => f) (fun _ => EmptyString)
           (S754_zero false) (S754_zero false)
           [("current", JDict [("wind_speed_10m", JInt 12)])]).
  - reflexivity.
  - intros current [= <-]. eexists. split; reflexivity.
Defined.

(** X19.  For a forecast whose temperature is an integer [t], with an
    integer wind speed and weather code or none (0 stands in for a missing
    one), [weather_summary] returns the four-key mapping with [t] and the
    wind unchanged; the condition is the table's wording of the code, or
    [unknown weather] for a code the table lacks; and the closing remark
    follows the bands below 32, 32 to 49, 50 to 69, 70 to 84, and 85 and
    above. *)
Theorem weather_summary_of_integers
        (requests_get : string -> dict -> pyres Server.Response)
        (describe : string -> json -> string)
        (round1 : spec_float -> spec_float) (repr : json -> string)
        (latitude longitude : spec_float) (body current : dict) (t w k : Z) :
  (forall params,
      requests_get forecast_url params = Ret (answered (JDict body))) ->
  Dict.get "current" body = Some (JDict current) ->
  Dict.get "temperature_2m" current = Some (JInt t) ->
  Dict.get_or "wind_speed_10m" (JInt 0) current = JInt w ->
  Dict.get_or "weather_code" (JInt 0) current = JInt k ->
  exists condition feel,
    Server.weather_summary requests_get describe round1 repr latitude longitude
    = Ret (JDict
             [("temperature_f", JInt t); ("condition", JStr condition);
              ("wind_kmh", JInt w);
              ("summary",
               JStr ("It's currently " ++ Server.decimal t ++ "°F and "
                     ++ condition ++ " with winds around "
                     ++ Server.decimal w ++ " km/h. " ++ feel))])
    /\ (In (k, condition) Server.descriptions
        \/ condition = "unknown weather"
           /\ forall c, ~ In (k, c) Server.descriptions)
    /\ ((t < 32)%Z -> feel = "Freezing cold — perfect for hot cocoa indoors!")
    /\ ((32 <= t < 50)%Z -> feel = "Chilly — grab a cozy sweater.")
    /\ ((50 <= t < 70)%Z -> feel = "Pleasant and mild.")
    /\ ((70 <= t < 85)%Z -> feel = "Warm and lovely.")
    /\ ((85 <= t)%Z -> feel = "Hot — stay hydrated!").
Proof.
  intros Hget Hcurrent Htemp Hwind Hcode.
  unfold Server.weather_summary.
  rewrite (get_weather_answered requests_get describe latitude longitude body Hget).
  unfold Dict.get_or at 1. rewrite Hcurrent.
  cbn [Server.pbind Server.attr_get].
  replace (Dict.get_or "temperature_2m" JNull current) with (JInt t)
    by (unfold Dict.get_or; rewrite Htemp; reflexivity).
  rewrite Hwind, Hcode.
  cbn [Server.condition_of Server.pbind].
  unfold Server.feel_of. cbn [Server.less_than Server.pbind].
  set (condition :=
         match find (fun kv => Z.eqb k (fst kv)) Server.descriptions with
         | Some kv => snd kv
         | None => "unknown weather"
         end).
  assert (Hcondition :
            In (k, condition) Server.descriptions
            \/ condition = "unknown weather"
               /\ forall c, ~ In (k, c) Server.descriptions).
  { subst condition.
    destruct (find (fun kv => Z.eqb k (fst kv)) Server.descriptions)
      as [[k' c] |] eqn:Hfind.
    - left. apply find_some in Hfind as [Hin Heq].
      cbn [fst] in Heq. apply Z.eqb_eq in Heq. subst k'. exact Hin.
    - right. split; [reflexivity |]. intros c Hin.
      pose proof (find_none _ _ Hfind (k, c) Hin) as Hne.
      cbn [fst] in Hne. rewrite Z.eqb_refl in Hne. discriminate. }
  destruct (Z.ltb_spec t 32); cbn [Server.round_1 Server.pbind Server.fmt];
    [| destruct (Z.ltb_spec t 50); cbn [Server.round_1 Server.pbind Server.fmt];
       [| destruct (Z.ltb_spec t 70);
          cbn [Server.round_1 Server.pbind Server.fmt];
          [| destruct (Z.ltb_spec t 85);
             cbn [Server.round_1 Server.pbind Server.fmt] ] ] ];
    eexists condition, _; (split; [reflexivity |]);
    (split; [exact Hcondition |]);
    repeat split; intros; first [reflexivity | lia].
Qed.

(** The statement above for 59 degrees, wind 12, code 3. *)
Lemma weather_summary_of_integers_witness :
  exists condition feel,
    Server.weather_summary
      (fun _ _ =>
         Ret (answered
                (JDict [("current",
                         JDict [("temperature_2m", JInt 59);
                                ("wind_speed_10m", JInt 12);
                                ("weather_code", JInt 3)])])))
      (fun cls _ => cls) (fun f => f) (fun _ => EmptyString)
      (S754_zero false) (S754_zero false)
    = Ret (JDict
             [("temperature_f", JInt 59); ("condition", JStr condition);
              ("wind_kmh", JInt 12);
              ("summary",
               JStr ("It's currently " ++ Server.decimal 59 ++ "°F and "
                     ++ condition ++ " with winds around "
                     ++ Server.decimal 12 ++ " km/h. " ++ feel))])
    /\ (In (3%Z, condition) Server.descriptions
        \/ condition = "unknown weather"
           /\ forall c, ~ In (3%Z, c) Server.descriptions)
    /\ ((59 < 32)%Z -> feel = "Freezing cold — perfect for hot cocoa indoors!")
    /\ ((32 <= 59 < 50)%Z -> feel = "Chilly — grab a cozy sweater.")
    /\ ((50 <= 59 < 70)%Z -> feel = "Pleasant and mild.")
    /\ ((70 <= 59 < 85)%Z -> feel = "Warm and lovely.")
    /\ ((85 <= 59)%Z -> feel = "Hot — stay hydrated!").
Proof.
  apply (weather_summary_of_integers
           _ (fun cls _ => cls) (fun f => f) (fun _ => EmptyString)
           (S754_zero false) (S754_zero false)
           [("current",
             JDict [("temperature_2m", JInt 59); ("wind_speed_10m", JInt 12);
                    ("weather_code", JInt 3)])]
           [("temperature_2m", JInt 59); ("wind_speed_10m", JInt 12);
            ("weather_code", JInt 3)]);
    reflexivity.
Defined.

(** X20.  When the temperature of the forecast is a text,
    [weather_summary] does not return: it raises a [TypeError]. *)
Theorem weather_summary_of_text_raises
        (requests_get : string -> dict -> pyres Server.Response)
        (describe : string -> json -> string)
        (round1 : spec_float -> spec_float) (repr : json -> string)
        (latitude longitude : spec_float) (body current : dict)
        (temperature : string) :
  (forall params,
      requests_get forecast_url params = Ret (answered (JDict body))) ->
  Dict.get "current" body = Some (JDict current) ->
  Dict.get "temperature_2m" current = Some (JStr temperature) ->
  exists operand,
    Server.weather_summary requests_get describe round1 repr latitude longitude
    = Raise (Fault "TypeError" (describe "TypeError" operand)).
Proof.
  intros Hget Hcurrent Htemp.
  unfold Server.weather_summary.
  rewrite (get_weather_answered requests_get describe latitude longitude body Hget).
  unfold Dict.get_or at 1. rewrite Hcurrent.
  cbn [Server.pbind Server.attr_get].
  replace (Dict.get_or "temperature_2m" JNull current) with (JStr temperature)
    by (unfold Dict.get_or; rewrite Htemp; reflexivity).
  cbn [Server.pbind].
  destruct (Dict.get_or "weather_code" (JInt 0) current);
    cbn [Server.condition_of Server.pbind Server.feel_of Server.less_than
           Server.builtin_error];
    eauto.
Qed.

(** The statement above for a forecast whose temperature is the text
    [n/a]. *)
Lemma weather_summary_of_text_raises_witness :
  exists operand,
    Server.weather_summary
      (fun _ _ =>
         Ret (answered
                (JDict [("current", JDict [("temperature_2m", JStr "n/a")])])))
      (fun cls _ => cls) (fun f => f) (fun _ => EmptyString)
      (S754_zero false) (S754_zero false)
    = Raise (Fault "TypeError" ((fun cls (_ : json) => cls) "TypeError" operand)).
Proof.
  apply (weather_summary_of_text_raises
           _ (fun cls _ => cls) (fun f => f) (fun _ => EmptyString)
           (S754_zero false) (S754_zero false)
           [("current", JDict [("temperature_2m", JStr "n/a")])]
           [("temperature_2m", JStr "n/a")] "n/a");
    reflexivity.
Defined.

(** ** Books and dogs *)

(** X21.  Whatever the book search does, [book_recs] returns a text; it
    raises nothing but a cancellation. *)
Theorem book_recs_always_text
        (requests_get : string -> dict -> pyres Server.Response)
        (describe : string -> json -> string) (repr : json -> string)
        (topic : string) (limit : Z) :
  match Server.book_recs requests_get describe repr topic limit with
  | Ret v => exists s, v = JStr s
  | Raise e => e = Cancelled
  end.
Proof.
  unfold Server.book_recs. apply catch_returns.
  - intros v H. do 3 (bind_step H).
    match type of H with (if ?c then _ else _) = _ => destruct c end.
    + injection H as <-. eauto.
    + do 2 (bind_step H). injection H as <-. eauto.
  - intros e v [= <-]. eauto.
  - intros e. eauto.
Qed.

Section Books.

Variable describe : string -> json -> string.

Lemma titles_of_objects (docs : list json) :
  Forall is_object docs ->
  Server.map_res
    (fun d => Server.attr_get describe d "title" (JStr "Unknown Title")) docs
  = Ret (map title_of docs).
Proof.
  induction 1 as [| doc docs [d ->] _ IH]; [reflexivity |].
  cbn [Server.map_res Server.attr_get Server.pbind map title_of].
  rewrite IH. reflexivity.
Qed.

Lemma firstn_objects (n : nat) (docs : list json) :
  Forall is_object docs -> Forall is_object (firstn n docs).
Proof.
  intros H. revert n. induction H as [| doc docs Hdoc _ IH]; intros [| n];
    cbn [firstn]; constructor; auto.
Qed.

End Books.

(** X22.  When the book search answers with a non-empty list of objects
    and the limit is positive, [book_recs] lists the titles of the first
    [limit] results in their order, numbered from 1, with [Unknown Title]
    for a result without title: never more than [limit] lines. *)
Theorem book_recs_lists_the_first_results
        (requests_get : string -> dict -> pyres Server.Response)
        (describe : string -> json -> string) (repr : json -> string)
        (topic : string) (limit : Z) (body : dict) (docs : list json) :
  (forall params, requests_get books_url params = Ret (answered (JDict body))) ->
  Dict.get "docs" body = Some (JList docs) ->
  Forall is_object docs ->
  docs <> [] ->
  (0 < limit)%Z ->
  let titles := map title_of (firstn (Z.to_nat limit) docs) in
  Server.book_recs requests_get describe repr topic limit
  = Ret (JStr ("Here are some " ++ topic ++ " books:" ++ PyStr.nl
               ++ PyStr.join PyStr.nl (Server.numbered repr 0 titles)))
  /\ length titles <= Z.to_nat limit
  /\ length titles <= length docs.
Proof.
  intros Hget Hdocs Hobjects Hne Hlimit titles. subst titles.
  split; [| rewrite length_map, length_firstn; lia].
  unfold Server.book_recs, Server.fetch, Server.pbind at 1 2.
  fold books_url. rewrite Hget.
  cbn [answered Server.raise_for_status Server.json_ Server.attr_get].
  unfold Dict.get_or. rewrite Hdocs.
  cbn [Server.pbind Server.upto]. unfold Server.list_upto.
  destruct (Z.leb_spec 0 limit) as [_ | Hneg]; [| lia].
  assert (Hsome : truthy (JList (firstn (Z.to_nat limit) docs)) = true).
  { destruct docs as [| doc docs]; [destruct (Hne eq_refl) |].
    destruct (Z.to_nat limit) as [| n] eqn:Hn; [lia | reflexivity]. }
  rewrite Hsome. cbn [negb Server.iterate Server.pbind].
  rewrite (titles_of_objects describe _ (firstn_objects _ docs Hobjects)).
  reflexivity.
Qed.

(** The statement above for three results and the limit 2. *)
Lemma book_recs_lists_the_first_results_witness :
  let docs := [JDict [("title", JStr "Dune")]; JDict [];
               JDict [("title", JStr "Emma")]] in
  let titles := map title_of (firstn (Z.to_nat 2) docs) in
  Server.book_recs (fun _ _ => Ret (answered (JDict [("docs", JList docs)])))
                   (fun cls _ => cls) (fun _ => EmptyString) "classic" 2
  = Ret (JStr ("Here are some " ++ "classic" ++ " books:" ++ PyStr.nl
               ++ PyStr.join PyStr.nl
                    (Server.numbered (fun _ => EmptyString) 0 titles)))
  /\ length titles <= Z.to_nat 2
  /\ length titles <= length docs.
Proof.
  apply (book_recs_lists_the_first_results
           _ (fun cls _ => cls) (fun _ => EmptyString) "classic" 2
           [("docs", JList [JDict [("title", JStr "Dune")]; JDict [];
                            JDict [("title", JStr "Emma")]])]).
  - reflexivity.
  - reflexivity.
  - repeat constructor; eexists; reflexivity.
  - discriminate.
  - reflexivity.
Defined.

(** X23.  Whatever the dog service does, [random_dog] returns a text that
    begins with [http]: the address the service gave, or the placeholder
    address; it raises nothing but a cancellation. *)
Theorem random_dog_always_an_address
        (requests_get : string -> dict -> pyres Server.Response)
        (describe : string -> json -> string) :
  match Server.random_dog requests_get describe with
  | Ret v => exists s, v = JStr s /\ String.prefix "http" s = true
  | Raise e => e = Cancelled
  end.
Proof.
  unfold Server.random_dog. apply catch_returns.
  - intros v H. do 2 (bind_step H).
    match type of H with (if ?c then _ else _) = _ => destruct c end.
    + injection H as <-. eexists. split; reflexivity.
    + match type of H with
      | match ?u with _ => _ end = _ => destruct u; try discriminate H
      end.
      match type of H with (if ?c then _ else _) = _ => destruct c eqn:Hp end;
        injection H as <-; eexists; split; try reflexivity; exact Hp.
  - intros e v [= <-]. eexists. split; reflexivity.
  - intros e. eauto.
Qed.

(** ** Trivia *)

Section Trivia.

Variable requests_get : string -> dict -> pyres Server.Response.
Variable describe : string -> json -> string.
Variable html_unescape : json -> pyres json.
Variable shuffle : list json -> list json.
Variable equal : json -> json -> bool.
Variable repr : json -> string.

Lemma map_res_length {A B} (f : A -> pyres B) (l : list A) (l' : list B) :
  Server.map_res f l = Ret l' -> length l' = length l.
Proof.
  revert l'. induction l as [| a l IH]; intros l'; cbn [Server.map_res].
  - intros [= <-]. reflexivity.
  - destruct (f a) as [b | e]; cbn [Server.pbind]; [| discriminate].
    destruct (Server.map_res f l) as [bs | e]; cbn [Server.pbind];
      [| discriminate].
    intros [= <-]. cbn [length]. rewrite (IH bs eq_refl). reflexivity.
Qed.

(** With fewer than four options, some label has no option. *)
Lemma option_lines_need_four (options : list json) :
  length options < 4 ->
  exists e,
    Server.map_res
      (fun label =>
         Server.pbind
           (Server.labeled_at describe (combine Server.labels options) label)
           (fun v => Ret ("  " ++ label ++ ") " ++ Server.fmt repr v)))
      Server.labels
    = Raise e.
Proof.
  intros Hlen.
  destruct options as [| o1 [| o2 [| o3 [| o4 rest]]]];
    [| | | | cbn [length] in Hlen; lia];
    cbn; eauto.
Qed.

End Trivia.

(** X24.  When a trivia question comes with fewer than three incorrect
    answers, [trivia] does not return: with fewer than four options one of
    the four labels has nothing to show, and the tool raises. *)
Theorem trivia_needs_three_incorrect_answers
        (requests_get : string -> dict -> pyres Server.Response)
        (describe : string -> json -> string)
        (html_unescape : json -> pyres json)
        (shuffle : list json -> list json)
        (equal : json -> json -> bool) (repr : json -> string)
        (body question : dict) (others wrong : list json) :
  (forall params, requests_get trivia_url params = Ret (answered (JDict body))) ->
  Dict.get "results" body = Some (JList (JDict question :: others)) ->
  Dict.get "incorrect_answers" question = Some (JList wrong) ->
  length wrong < 3 ->
  (forall l, length (shuffle l) = length l) ->
  exists e,
    Server.trivia requests_get describe html_unescape shuffle equal repr
    = Raise e.
Proof.
  intros Hget Hresults Hwrong Hshort Hshuffle.
  unfold Server.trivia, Server.fetch, Server.pbind at 1 2.
  fold trivia_url. rewrite Hget.
  cbn [answered Server.raise_for_status Server.json_ Server.attr_get].
  unfold Dict.get_or. rewrite Hresults.
  cbn [truthy negb Server.first Server.pbind Server.item].
  destruct (Dict.get "question" question) as [q_question |];
    [| cbn; eauto].
  cbn [Server.pbind].
  destruct (html_unescape q_question) as [text |]; [| cbn; eauto].
  cbn [Server.pbind].
  destruct (Dict.get "correct_answer" question) as [q_correct |];
    [| cbn; eauto].
  cbn [Server.pbind].
  destruct (html_unescape q_correct) as [correct |]; [| cbn; eauto].
  cbn [Server.pbind]. rewrite Hwrong. cbn [Server.pbind Server.iterate].
  destruct (Server.map_res html_unescape wrong) as [incorrect |] eqn:Hmap;
    [| cbn; eauto].
  cbn [Server.pbind].
  destruct (find _ _) as [kv |]; [| cbn; eauto].
  cbn [Server.pbind].
  destruct (option_lines_need_four describe repr
              (shuffle (incorrect ++ [correct])%list)) as [e He].
  { rewrite Hshuffle, length_app, (map_res_length _ _ _ Hmap). cbn [length].
    lia. }
  rewrite He. cbn [Server.pbind]. eauto.
Qed.

(** The statement above for a question with two incorrect answers. *)
Lemma trivia_needs_three_incorrect_answers_witness :
  exists e,
    Server.trivia
      (fun _ _ =>
         Ret (answered
                (JDict [("results",
                         JList [JDict [("question", JStr "Is it so?");
                                       ("correct_answer", JStr "Yes");
                                       ("incorrect_answers",
                                        JList [JStr "No"; JStr "Maybe"])]])])))
      (fun cls _ => cls) (fun v => Ret v) (fun l => l)
      (fun _ _ => true) (fun _ => EmptyString)
    = Raise e.
Proof.
  apply (trivia_needs_three_incorrect_answers
           _ (fun cls _ => cls) (fun v => Ret v) (fun l => l)
           (fun _ _ => true) (fun _ => EmptyString)
           [("results",
             JList [JDict [("question", JStr "Is it so?");
                           ("correct_answer", JStr "Yes");
                           ("incorrect_answers",
                            JList [JStr "No"; JStr "Maybe"])]])]
           [("question", JStr "Is it so?"); ("correct_answer", JStr "Yes");
            ("incorrect_answers", JList [JStr "No"; JStr "Maybe"])]
           [] [JStr "No"; JStr "Maybe"]);
    try reflexivity.
  cbn. lia.
Defined.

(** X25.  For a question with exactly three incorrect answers, when the
    shuffle keeps the options and their number and every value equals
    itself, [trivia] returns the question, the four shuffled options under
    the labels A to D, and an answer line whose label is the label of an
    option equal to the correct answer. *)
Theorem trivia_reveals_the_right_label
        (requests_get : string -> dict -> pyres Server.Response)
        (describe : string -> json -> string)
        (html_unescape : json -> pyres json) (unescape : json -> json)
        (shuffle : list json -> list json)
        (equal : json -> json -> bool) (repr : json -> string)
        (body question : dict) (others : list json)
        (q0 c0 w1 w2 w3 : json) :
  (forall params, requests_get trivia_url params = Ret (answered (JDict body))) ->
  Dict.get "results" body = Some (JList (JDict question :: others)) ->
  Dict.get "question" question = Some q0 ->
  Dict.get "correct_answer" question = Some c0 ->
  Dict.get "incorrect_answers" question = Some (JList [w1; w2; w3]) ->
  (forall v, html_unescape v = Ret (unescape v)) ->
  (forall l, length (shuffle l) = length l) ->
  (forall l x, In x l -> In x (shuffle l)) ->
  (forall v, equal v v = true) ->
  exists o1 o2 o3 o4 label option,
    shuffle [unescape w1; unescape w2; unescape w3; unescape c0]
    = [o1; o2; o3; o4]
    /\ In (label, option) [("A", o1); ("B", o2); ("C", o3); ("D", o4)]
    /\ equal option (unescape c0) = true
    /\ Server.trivia requests_get describe html_unescape shuffle equal repr
       = Ret (JStr (PyStr.join PyStr.nl
                      ["Question: " ++ Server.fmt repr (unescape q0);
                       EmptyString;
                       "  A) " ++ Server.fmt repr o1;
                       "  B) " ++ Server.fmt repr o2;
                       "  C) " ++ Server.fmt repr o3;
                       "  D) " ++ Server.fmt repr o4;
                       PyStr.nl ++ "Answer: " ++ label ++ ") "
                       ++ Server.fmt repr (unescape c0)])).
Proof.
  intros Hget Hresults Hq Hc Hw Hunescape Hlength Hkeeps Hrefl.
  unfold Server.trivia, Server.fetch, Server.pbind at 1 2.
  fold trivia_url. rewrite Hget.
  cbn [answered Server.raise_for_status Server.json_ Server.attr_get].
  unfold Dict.get_or. rewrite Hresults.
  cbn [truthy negb Server.first Server.pbind Server.item].
  rewrite Hq, Hc, Hw. cbn [Server.pbind Server.iterate Server.map_res].
  rewrite !Hunescape. cbn [Server.pbind Server.map_res app].
  pose proof (Hlength [unescape w1; unescape w2; unescape w3; unescape c0])
    as Hfour.
  pose proof (Hkeeps [unescape w1; unescape w2; unescape w3; unescape c0]
                (unescape c0) ltac:(cbn; auto)) as Hin.
  destruct (shuffle [unescape w1; unescape w2; unescape w3; unescape c0])
    as [| o1 [| o2 [| o3 [| o4 [| o5 rest]]]]]; try discriminate Hfour.
  exists o1, o2, o3, o4.
  cbn [combine Server.labels].
  destruct (find (fun kv : string * json => equal (snd kv) (unescape c0))
              [("A", o1); ("B", o2); ("C", o3); ("D", o4)])
    as [[label option] |] eqn:Hfind.
  - exists label, option.
    apply find_some in Hfind as [Hlabel Hequal]. cbn [snd] in Hequal.
    repeat split; assumption.
  - exfalso.
    assert (Hsome : exists label,
               In (label, unescape c0)
                  [("A", o1); ("B", o2); ("C", o3); ("D", o4)]).
    { destruct Hin as [<- | [<- | [<- | [<- | []]]]];
        [exists "A" | exists "B" | exists "C" | exists "D"]; cbn; auto. }
    destruct Hsome as [label Hlabel].
    pose proof (find_none _ _ Hfind _ Hlabel) as Hno.
    cbn [snd] in Hno. rewrite Hrefl in Hno. discriminate.
Qed.

(** The statement above for a question about a sum, with a shuffle that
    reverses the options. *)
Lemma trivia_reveals_the_right_label_witness :
  exists o1 o2 o3 o4 label option,
    rev [JStr "3"; JStr "5"; JStr "22"; JStr "4"] = [o1; o2; o3; o4]
    /\ In (label, option) [("A", o1); ("B", o2); ("C", o3); ("D", o4)]
    /\ (fun a b : json =>
          match a, b with
          | JStr x, JStr y => String.eqb x y
          | _, _ => true
          end) option (JStr "4") = true
    /\ Server.trivia
         (fun _ _ =>
            Ret (answered
                   (JDict [("results",
                            JList [JDict [("question", JStr "2 + 2?");
                                          ("correct_answer", JStr "4");
                                          ("incorrect_answers",
                                           JList [JStr "3"; JStr "5";
                                                  JStr "22"])]])])))
         (fun cls _ => cls) (fun v => Ret v) (@rev json)
         (fun a b : json =>
            match a, b with
            | JStr x, JStr y => String.eqb x y
            | _, _ => true
            end)
         (fun _ => EmptyString)
       = Ret (JStr (PyStr.join PyStr.nl
                      ["Question: " ++ Server.fmt (fun _ => EmptyString) (JStr "2 + 2?");
                       EmptyString;
                       "  A) " ++ Server.fmt (fun _ => EmptyString) o1;
                       "  B) " ++ Server.fmt (fun _ => EmptyString) o2;
                       "  C) " ++ Server.fmt (fun _ => EmptyString) o3;
                       "  D) " ++ Server.fmt (fun _ => EmptyString) o4;
                       PyStr.nl ++ "Answer: " ++ label ++ ") "
                       ++ Server.fmt (fun _ => EmptyString) (JStr "4")])).
Proof.
  apply (trivia_reveals_the_right_label
           _ (fun cls _ => cls) (fun v => Ret v) (fun v => v) (@rev json)
           _ (fun _ => EmptyString)
           [("results",
             JList [JDict [("question", JStr "2 + 2?");
                           ("correct_answer", JStr "4");
                           ("incorrect_answers",
                            JList [JStr "3"; JStr "5"; JStr "22"])]])]
           [("question", JStr "2 + 2?"); ("correct_answer", JStr "4");
            ("incorrect_answers", JList [JStr "3"; JStr "5"; JStr "22"])]
           [] (JStr "2 + 2?") (JStr "4") (JStr "3") (JStr "5") (JStr "22"));
    try reflexivity.
  - intros l. apply length_rev.
  - intros l x Hx. apply in_rev in Hx. exact Hx.
  - intros [| | | | s | |]; try reflexivity. apply String.eqb_refl.
Defined.
